(** * Fal.ai image-editing adapter: a model of [fal_ai_mcp_server.py]

    The program is a thin adapter with a vendor client
    ([FalAIImageEditor], four methods), a tool-protocol front-end
    ([handle_call_tool]) and an HTTP front-end ([create_http_app], five
    routes).  The model below follows the Python text: JSON data are Python
    values, a raised exception is a result of its own, the outbound POST is
    an oracle held by the world, and the world records every POST and every
    log line. *)

From Stdlib Require Import ZArith List String Ascii Bool Lia.
From Stdlib Require Import DecimalString.
From Stdlib Require Import PrimFloat SpecFloat FloatOps.
Import ListNotations.

Local Open Scope string_scope.
Local Open Scope Z_scope.

(* The nested value type needs no generated scheme, and 0.8 is meant as the
   binary64 value Python reads it as. *)
Set Warnings "-register-all,-inexact-float".

(* ------------------------------------------------------------------ *)
(** ** Python values *)

(** What [json.loads] produces, and what the handlers pass around.  A dict
    keeps its items in insertion order; its keys are strings, as in JSON. *)
Inductive pyval : Type :=
| PNone
| PBool (b : bool)
| PInt (z : Z)
| PFloat (f : float)
| PStr (s : string)
| PList (l : list pyval)
| PDict (d : list (string * pyval)).

Definition dict : Type := list (string * pyval).

(** [d.get(k)]: the value stored under [k], if any. *)
Fixpoint dict_get (d : dict) (k : string) : option pyval :=
  match d with
  | [] => None
  | (k', v) :: d' => if String.eqb k' k then Some v else dict_get d' k
  end.

(** [type(v).__name__] *)
Definition type_name (v : pyval) : string :=
  match v with
  | PNone => "NoneType"
  | PBool _ => "bool"
  | PInt _ => "int"
  | PFloat _ => "float"
  | PStr _ => "str"
  | PList _ => "list"
  | PDict _ => "dict"
  end.

(** [bool(v)]: what [not v] and [v or w] test. *)
Definition truthy (v : pyval) : bool :=
  match v with
  | PNone => false
  | PBool b => b
  | PInt z => negb (z =? 0)
  | PFloat f => negb (PrimFloat.eqb f 0%float)
  | PStr s => negb (String.eqb s "")
  | PList l => match l with [] => false | _ => true end
  | PDict d => match d with [] => false | _ => true end
  end.

(** [a or b] *)
Definition py_or (a b : pyval) : pyval := if truthy a then a else b.

(** [str(z)] for an int. *)
Definition str_int (z : Z) : string := NilZero.string_of_int (Z.to_int z).

(** One line feed, the [\n] of the source's string literals. *)
Definition nl : string := String (ascii_of_nat 10) EmptyString.

(* ------------------------------------------------------------------ *)
(** ** The parts of the Python runtime the program calls but does not define *)

(** [str()] of a float, [repr()] of a str, and the parsing of a str by
    [float()] and [int()] are the interpreter's; they are taken as they
    come.  [None] from a parser is Python's [ValueError]. *)
Class Runtime : Type := {
  float_repr : float -> string;
  str_repr : string -> string;
  float_of_str : string -> option float;
  int_of_str : string -> option Z
}.

(* ------------------------------------------------------------------ *)
(** ** Exceptions and the result of a call *)

(** An instance of a subclass of [Exception], which is what the calls made
    here raise and what [except Exception] catches; [exc_str] is [str(e)]. *)
Record exn : Type := { exc_type : string; exc_str : string }.

Definition KeyError (key_repr : string) : exn :=
  {| exc_type := "KeyError"; exc_str := key_repr |}.
Definition IndexError (msg : string) : exn :=
  {| exc_type := "IndexError"; exc_str := msg |}.
Definition TypeError (msg : string) : exn :=
  {| exc_type := "TypeError"; exc_str := msg |}.
Definition ValueError (msg : string) : exn :=
  {| exc_type := "ValueError"; exc_str := msg |}.
Definition OverflowError (msg : string) : exn :=
  {| exc_type := "OverflowError"; exc_str := msg |}.
Definition AttributeError (msg : string) : exn :=
  {| exc_type := "AttributeError"; exc_str := msg |}.

Inductive result (A : Type) : Type :=
| Raise (e : exn)
| Return (a : A).
Arguments Raise {A} e.
Arguments Return {A} a.

(** [", ".join(parts)] *)
Fixpoint join (sep : string) (parts : list string) : string :=
  match parts with
  | [] => ""
  | [p] => p
  | p :: rest => p ++ sep ++ join sep rest
  end.

Section Builtins.
Context {rt : Runtime}.

(** [repr(v)] *)
Fixpoint py_repr (v : pyval) : string :=
  match v with
  | PNone => "None"
  | PBool true => "True"
  | PBool false => "False"
  | PInt z => str_int z
  | PFloat f => float_repr f
  | PStr s => str_repr s
  | PList l => "[" ++ join ", " (map py_repr l) ++ "]"
  | PDict d =>
      "{" ++ join ", "
               (map (fun kv => match kv with
                               | (k, x) => str_repr k ++ ": " ++ py_repr x
                               end) d) ++ "}"
  end.

(** [str(v)], which is what an f-string field [{v}] inserts. *)
Definition py_str (v : pyval) : string :=
  match v with
  | PStr s => s
  | _ => py_repr v
  end.

(** [float(z)] for an int: nearest binary64, ties to even. *)
Definition float_of_Z (z : Z) : result float :=
  match binary_normalize prec emax z 0 false with
  | S754_infinity _ => Raise (OverflowError "int too large to convert to float")
  | sf => Return (SF2Prim sf)
  end.

(** [int(f)] for a float: truncation towards zero. *)
Definition Z_of_float (f : float) : result Z :=
  match Prim2SF f with
  | S754_zero _ => Return 0
  | S754_infinity _ =>
      Raise (OverflowError "cannot convert float infinity to integer")
  | S754_nan => Raise (ValueError "cannot convert float NaN to integer")
  | S754_finite s m e =>
      let magnitude :=
        if 0 <=? e then Z.shiftl (Z.pos m) e else Z.shiftr (Z.pos m) (- e) in
      Return (if s then - magnitude else magnitude)
  end.

(** [float(v)] *)
Definition py_float (v : pyval) : result float :=
  match v with
  | PFloat f => Return f
  | PInt z => float_of_Z z
  | PBool b => Return (if b then 1%float else 0%float)
  | PStr s =>
      match float_of_str s with
      | Some f => Return f
      | None =>
          Raise (ValueError ("could not convert string to float: " ++ str_repr s))
      end
  | PNone | PList _ | PDict _ =>
      Raise (TypeError ("float() argument must be a string or a real number, not '"
                          ++ type_name v ++ "'"))
  end.

(** [int(v)] *)
Definition py_int (v : pyval) : result Z :=
  match v with
  | PInt z => Return z
  | PBool b => Return (if b then 1 else 0)
  | PFloat f => Z_of_float f
  | PStr s =>
      match int_of_str s with
      | Some z => Return z
      | None =>
          Raise (ValueError ("invalid literal for int() with base 10: " ++ str_repr s))
      end
  | PNone | PList _ | PDict _ =>
      Raise (TypeError
               ("int() argument must be a string, a bytes-like object or a real number, not '"
                  ++ type_name v ++ "'"))
  end.

(** [data.get(k, default)]: only a dict has the method. *)
Definition py_get (data : pyval) (k : string) (default : pyval) : result pyval :=
  match data with
  | PDict d =>
      Return (match dict_get d k with Some v => v | None => default end)
  | PNone | PBool _ | PInt _ | PFloat _ | PStr _ | PList _ =>
      Raise (AttributeError ("'" ++ type_name data ++ "' object has no attribute 'get'"))
  end.

(** [v[k]] for a str key [k]. *)
Definition subscript_key (v : pyval) (k : string) : result pyval :=
  match v with
  | PDict d =>
      match dict_get d k with
      | Some x => Return x
      | None => Raise (KeyError (str_repr k))
      end
  | PList _ => Raise (TypeError "list indices must be integers or slices, not str")
  | PStr _ => Raise (TypeError "string indices must be integers, not 'str'")
  | PNone | PBool _ | PInt _ | PFloat _ =>
      Raise (TypeError ("'" ++ type_name v ++ "' object is not subscriptable"))
  end.

(** The number of bytes of the UTF-8 sequence that starts with [c]. *)
Definition utf8_width (c : ascii) : nat :=
  let n := nat_of_ascii c in
  if (n <? 192)%nat then 1
  else if (n <? 224)%nat then 2
  else if (n <? 240)%nat then 3 else 4.

Fixpoint take (n : nat) (s : string) : string :=
  match n, s with
  | S n', String c s' => String c (take n' s')
  | _, _ => ""
  end.

(** [v[0]] *)
Definition subscript_0 (v : pyval) : result pyval :=
  match v with
  | PList [] => Raise (IndexError "list index out of range")
  | PList (x :: _) => Return x
  | PStr "" => Raise (IndexError "string index out of range")
  | PStr (String c s) => Return (PStr (take (utf8_width c) (String c s)))
  | PDict d => Raise (KeyError "0")
  | PNone | PBool _ | PInt _ | PFloat _ =>
      Raise (TypeError ("'" ++ type_name v ++ "' object is not subscriptable"))
  end.

End Builtins.

(* ------------------------------------------------------------------ *)
(** ** The world: the vendor, the calls made, the log *)

(** What [client.post(url, json=..., headers=...)] is given. *)
Record request : Type := {
  url : string;
  json_body : pyval;
  headers : list (string * string)
}.

(** What the code reads of an [httpx.Response]: [status_code], [text], and
    the outcome of [json()], which parses the body or raises. *)
Record response : Type := {
  status_code : Z;
  text : string;
  json : result pyval
}.

(** A POST either raises (encoding, connection, timeout, ...) or returns
    a response. *)
Inductive outcome : Type :=
| Failed (e : exn)
| Responded (r : response).

(** The vendor answers a request knowing the earlier ones. [calls] lists the
    POSTs issued so far, oldest first; [log] the messages given to
    [logger.error]. *)
Record world : Type := {
  vendor : list request -> request -> outcome;
  calls : list request;
  log : list string
}.

(** A computation: runs in a world, raises or returns, leaves a world. *)
Definition M (A : Type) : Type := world -> result A * world.

Definition ret {A : Type} (a : A) : M A := fun w => (Return a, w).

Definition raise {A : Type} (e : exn) : M A := fun w => (Raise e, w).

Definition bind {A B : Type} (m : M A) (k : A -> M B) : M B :=
  fun w =>
    match m w with
    | (Return a, w') => k a w'
    | (Raise e, w') => (Raise e, w')
    end.

(** A pure step that may raise. *)
Definition lift {A : Type} (r : result A) : M A := fun w => (r, w).

(** [try: body  except Exception as e: handler(e)] *)
Definition try_except {A : Type} (body : M A) (handler : exn -> M A) : M A :=
  fun w =>
    match body w with
    | (Return a, w') => (Return a, w')
    | (Raise e, w') => handler e w'
    end.

Declare Scope py_scope.
Delimit Scope py_scope with py.
Notation "x <- m ;; k" := (bind m (fun x => k))
  (at level 61, m at next level, right associativity) : py_scope.
Notation "m ;;; k" := (bind m (fun _ => k))
  (at level 61, right associativity) : py_scope.
Local Open Scope py_scope.

(** The world once one more message is logged. *)
Definition with_log (w : world) (msg : string) : world :=
  {| vendor := vendor w; calls := calls w; log := log w ++ [msg] |}.

(** The world once one more request is issued. *)
Definition with_call (w : world) (req : request) : world :=
  {| vendor := vendor w; calls := calls w ++ [req]; log := log w |}.

(** [logger.error(msg)] *)
Definition logger_error (msg : string) : M unit :=
  fun w => (Return tt, with_log w msg).

(** [async with httpx.AsyncClient() as client: await client.post(...)] *)
Definition post (u : string) (payload : pyval) (hs : list (string * string))
  : M response :=
  fun w =>
    let req := {| url := u; json_body := payload; headers := hs |} in
    match vendor w (calls w) req with
    | Failed e => (Raise e, with_call w req)
    | Responded r => (Return r, with_call w req)
    end.

(* ------------------------------------------------------------------ *)
(** ** The result dicts of the client *)

(** [{"success": True, "image_url": ..., "model": ..., "prompt": ...}] *)
Definition success_dict (image_url : pyval) (model : string) (prompt : pyval)
  : pyval :=
  PDict [("success", PBool true); ("image_url", image_url);
         ("model", PStr model); ("prompt", prompt)].

(** [{"success": False, "error": ...}] *)
Definition failure_dict (error : string) : pyval :=
  PDict [("success", PBool false); ("error", PStr error)].

(* ------------------------------------------------------------------ *)
(** ** class FalAIImageEditor *)

Module FalAIImageEditor.

Record t : Type := { api_key : string; base_url : string }.

(** [__init__], given [os.environ.get("FAL_KEY")]. *)
Definition init (FAL_KEY : option string) : result t :=
  match FAL_KEY with
  | Some key =>
      if String.eqb key ""
      then Raise (ValueError "FAL_KEY environment variable is required")
      else Return {| api_key := key; base_url := "https://queue.fal.run" |}
  | None => Raise (ValueError "FAL_KEY environment variable is required")
  end.

Section Methods.
Context {rt : Runtime}.
Variable self : t.

Definition request_headers : list (string * string) :=
  [("Authorization", "Key " ++ api_key self);
   ("Content-Type", "application/json")].

(** The [else] branch shared by the four methods. *)
Definition api_request_failed (r : response) : pyval :=
  failure_dict ("API request failed: " ++ str_int (status_code r)
                  ++ " " ++ text r).

(** The [except Exception as e] clause, with the method's log prefix. *)
Definition on_exception (prefix : string) (e : exn) : M pyval :=
  logger_error (prefix ++ exc_str e) ;;;
  ret (failure_dict (exc_str e)).

(** The [try] suite of [edit_image_flux]. *)
Definition edit_image_flux_try (image_url prompt strength : pyval) : M pyval :=
  let payload :=
    PDict [("image_url", image_url); ("prompt", prompt);
           ("strength", strength); ("num_inference_steps", PInt 28);
           ("guidance_scale", PFloat 3.5%float)] in
  r <- post (base_url self ++ "/fal-ai/flux/dev/image-to-image")
            payload request_headers ;;
  if status_code r =? 200 then
    result <- lift (json r) ;;
    images <- lift (subscript_key result "images") ;;
    first <- lift (subscript_0 images) ;;
    u <- lift (subscript_key first "url") ;;
    ret (success_dict u "FLUX Dev" prompt)
  else ret (api_request_failed r).

Definition edit_image_flux (image_url prompt strength : pyval) : M pyval :=
  try_except (edit_image_flux_try image_url prompt strength)
             (on_exception "Error editing image with FLUX: ").

(** The [try] suite of [edit_image_qwen]. *)
Definition edit_image_qwen_try (image_url prompt : pyval) : M pyval :=
  let payload := PDict [("image_url", image_url); ("prompt", prompt)] in
  r <- post (base_url self ++ "/fal-ai/qwen-image-edit")
            payload request_headers ;;
  if status_code r =? 200 then
    result <- lift (json r) ;;
    image <- lift (subscript_key result "image") ;;
    u <- lift (subscript_key image "url") ;;
    ret (success_dict u "Qwen Image Edit" prompt)
  else ret (api_request_failed r).

Definition edit_image_qwen (image_url prompt : pyval) : M pyval :=
  try_except (edit_image_qwen_try image_url prompt)
             (on_exception "Error editing image with Qwen: ").

(** The [try] suite of [remove_background]. *)
Definition remove_background_try (image_url : pyval) : M pyval :=
  let payload := PDict [("image_url", image_url)] in
  r <- post (base_url self ++ "/fal-ai/imageutils/rembg")
            payload request_headers ;;
  if status_code r =? 200 then
    result <- lift (json r) ;;
    image <- lift (subscript_key result "image") ;;
    u <- lift (subscript_key image "url") ;;
    ret (success_dict u "Background Removal" (PStr "Remove background"))
  else ret (api_request_failed r).

Definition remove_background (image_url : pyval) : M pyval :=
  try_except (remove_background_try image_url)
             (on_exception "Error removing background: ").

(** The [try] suite of [upscale_image]. *)
Definition upscale_image_try (image_url scale : pyval) : M pyval :=
  let payload := PDict [("image_url", image_url); ("scale", scale)] in
  r <- post (base_url self ++ "/fal-ai/esrgan") payload request_headers ;;
  if status_code r =? 200 then
    result <- lift (json r) ;;
    image <- lift (subscript_key result "image") ;;
    u <- lift (subscript_key image "url") ;;
    ret (success_dict u "ESRGAN Upscaler"
                      (PStr ("Upscale " ++ py_str scale ++ "x")))
  else ret (api_request_failed r).

Definition upscale_image (image_url scale : pyval) : M pyval :=
  try_except (upscale_image_try image_url scale)
             (on_exception "Error upscaling image: ").

End Methods.

End FalAIImageEditor.

(* ------------------------------------------------------------------ *)
(** ** The object the front-ends call *)

(** Both front-ends reach the client through the module-level object
    [image_editor] and use nothing of it but its four methods; a test puts
    a mock in its place.  The front-ends are therefore stated over any
    object with these methods. *)
Module Editor.
Record t : Type := {
  edit_image_flux : pyval -> pyval -> pyval -> M pyval;
  edit_image_qwen : pyval -> pyval -> M pyval;
  remove_background : pyval -> M pyval;
  upscale_image : pyval -> pyval -> M pyval
}.
End Editor.

(** [image_editor = FalAIImageEditor()] *)
Definition image_editor {rt : Runtime} (self : FalAIImageEditor.t) : Editor.t :=
  {| Editor.edit_image_flux := FalAIImageEditor.edit_image_flux self;
     Editor.edit_image_qwen := FalAIImageEditor.edit_image_qwen self;
     Editor.remove_background := FalAIImageEditor.remove_background self;
     Editor.upscale_image := FalAIImageEditor.upscale_image self |}.

(* ------------------------------------------------------------------ *)
(** ** TOOLS *)

(** Of each [Tool] the name and, from its [inputSchema], the [required]
    list and the declared [default]s. *)
Record Tool : Type := {
  name : string;
  required : list string;
  defaults : list (string * pyval)
}.

Definition TOOLS : list Tool :=
  [ {| name := "edit_image_flux";
       required := ["image_url"; "prompt"];
       defaults := [("strength", PFloat 0.8%float)] |};
    {| name := "edit_image_qwen";
       required := ["image_url"; "prompt"];
       defaults := [] |};
    {| name := "remove_background";
       required := ["image_url"];
       defaults := [] |};
    {| name := "upscale_image";
       required := ["image_url"];
       defaults := [("scale", PInt 2)] |} ].

Definition handle_list_tools : M (list Tool) := ret TOOLS.

(* ------------------------------------------------------------------ *)
(** ** The tool-protocol front-end *)

Inductive TextContent : Type :=
| mkTextContent (type : string) (text : string).

Record CallToolResult : Type := {
  content : list TextContent;
  isError : bool
}.

(** [CallToolResult(content=[TextContent(type="text", text=msg)], isError=True)] *)
Definition error_result (msg : string) : CallToolResult :=
  {| content := [mkTextContent "text" msg]; isError := true |}.

(** [arguments.get(k, default)] on a dict. *)
Definition get_or (d : dict) (k : string) (default : pyval) : pyval :=
  match dict_get d k with
  | Some v => v
  | None => default
  end.

(** What a view function returns: [jsonify(body), status]. *)
Record flask_response : Type := { body : pyval; status : Z }.

Section FrontEnds.
Context {rt : Runtime}.
Variable editor : Editor.t.

(** The lines after the dispatch ("Format response"). *)
Definition format_response (result : pyval) : M CallToolResult :=
  success <- lift (subscript_key result "success") ;;
  response_text <-
    (if truthy success then
       model <- lift (subscript_key result "model") ;;
       prompt <- lift (subscript_key result "prompt") ;;
       image_url <- lift (subscript_key result "image_url") ;;
       ret ("✅ Image edited successfully!" ++ nl ++ nl
              ++ "**Model:** " ++ py_str model ++ nl
              ++ "**Prompt:** " ++ py_str prompt ++ nl
              ++ "**Result:** " ++ py_str image_url)
     else
       error <- lift (subscript_key result "error") ;;
       ret ("❌ Error editing image: " ++ py_str error)) ;;
  success' <- lift (subscript_key result "success") ;;
  ret {| content := [mkTextContent "text" response_text];
         isError := negb (truthy success') |}.

(** The [try] suite of [handle_call_tool]. *)
Definition handle_call_tool_try (name : string) (arguments : dict)
  : M CallToolResult :=
  if String.eqb name "edit_image_flux" then
    let image_url := get_or arguments "image_url" PNone in
    let prompt := get_or arguments "prompt" PNone in
    let strength := get_or arguments "strength" (PFloat 0.8%float) in
    if negb (truthy image_url) || negb (truthy prompt) then
      ret (error_result "Error: image_url and prompt are required")
    else
      result <- Editor.edit_image_flux editor image_url prompt strength ;;
      format_response result
  else if String.eqb name "edit_image_qwen" then
    let image_url := get_or arguments "image_url" PNone in
    let prompt := get_or arguments "prompt" PNone in
    if negb (truthy image_url) || negb (truthy prompt) then
      ret (error_result "Error: image_url and prompt are required")
    else
      result <- Editor.edit_image_qwen editor image_url prompt ;;
      format_response result
  else if String.eqb name "remove_background" then
    let image_url := get_or arguments "image_url" PNone in
    if negb (truthy image_url) then
      ret (error_result "Error: image_url is required")
    else
      result <- Editor.remove_background editor image_url ;;
      format_response result
  else if String.eqb name "upscale_image" then
    let image_url := get_or arguments "image_url" PNone in
    let scale := get_or arguments "scale" (PInt 2) in
    if negb (truthy image_url) then
      ret (error_result "Error: image_url is required")
    else
      result <- Editor.upscale_image editor image_url scale ;;
      format_response result
  else
    ret (error_result ("Error: Unknown tool '" ++ name ++ "'")).

(** The [except Exception as e] clause of [handle_call_tool]. *)
Definition handle_call_tool_except (e : exn) : M CallToolResult :=
  logger_error ("Error in handle_call_tool: " ++ exc_str e) ;;;
  ret (error_result ("Internal error: " ++ exc_str e)).

Definition handle_call_tool (name : string) (arguments : dict)
  : M CallToolResult :=
  try_except (handle_call_tool_try name arguments) handle_call_tool_except.

(* ---------------------------------------------------------------- *)
(** ** The HTTP front-end ([create_http_app]) *)

(** [jsonify(x)] alone is a response with status 200. *)
Definition jsonify (x : pyval) : flask_response := {| body := x; status := 200 |}.

(** [request.get_json(force=True, silent=True) or {}]; [parsed] is what
    [get_json] returns, [None] for a body that is absent or not JSON. *)
Definition request_data (parsed : pyval) : pyval := py_or parsed (PDict []).

Definition health : M flask_response :=
  ret (jsonify (PDict [("ok", PBool true); ("service", PStr "fal-ai-mcp-http")])).

(** The last line of the four POST routes. *)
Definition respond (result : pyval) : M flask_response :=
  ok <- lift (py_get result "success" PNone) ;;
  ret {| body := result; status := if truthy ok then 200 else 500 |}.

Definition bad_request (error : string) : flask_response :=
  {| body := failure_dict error; status := 400 |}.

Definition edit_flux (parsed : pyval) : M flask_response :=
  let data := request_data parsed in
  image_url <- lift (py_get data "image_url" PNone) ;;
  prompt <- lift (py_get data "prompt" PNone) ;;
  s <- lift (py_get data "strength" (PFloat 0.8%float)) ;;
  strength <- lift (py_float s) ;;
  if negb (truthy image_url) || negb (truthy prompt) then
    ret (bad_request "image_url and prompt are required")
  else
    result <- Editor.edit_image_flux editor image_url prompt (PFloat strength) ;;
    respond result.

Definition edit_qwen (parsed : pyval) : M flask_response :=
  let data := request_data parsed in
  image_url <- lift (py_get data "image_url" PNone) ;;
  prompt <- lift (py_get data "prompt" PNone) ;;
  if negb (truthy image_url) || negb (truthy prompt) then
    ret (bad_request "image_url and prompt are required")
  else
    result <- Editor.edit_image_qwen editor image_url prompt ;;
    respond result.

Definition remove_bg (parsed : pyval) : M flask_response :=
  let data := request_data parsed in
  image_url <- lift (py_get data "image_url" PNone) ;;
  if negb (truthy image_url) then
    ret (bad_request "image_url is required")
  else
    result <- Editor.remove_background editor image_url ;;
    respond result.

Definition upscale (parsed : pyval) : M flask_response :=
  let data := request_data parsed in
  image_url <- lift (py_get data "image_url" PNone) ;;
  s <- lift (py_get data "scale" (PInt 2)) ;;
  scale <- lift (py_int s) ;;
  if negb (truthy image_url) then
    ret (bad_request "image_url is required")
  else
    result <- Editor.upscale_image editor image_url (PInt scale) ;;
    respond result.

End FrontEnds.

(* ------------------------------------------------------------------ *)
(** ** Vocabulary of the statements *)

(** The four client operations, and the arguments a caller may give them
    (an operation reads the ones its method takes). *)
Inductive operation : Type :=
| EditFlux
| EditQwen
| RemoveBackground
| UpscaleImage.

Record call_args : Type := {
  arg_image_url : pyval;
  arg_prompt : pyval;
  arg_strength : pyval;
  arg_scale : pyval
}.

Section Vocabulary.
Context {rt : Runtime}.

(** The method of the client that carries out an operation. *)
Definition call (self : FalAIImageEditor.t) (op : operation) (a : call_args)
  : M pyval :=
  match op with
  | EditFlux =>
      FalAIImageEditor.edit_image_flux self (arg_image_url a) (arg_prompt a)
                                       (arg_strength a)
  | EditQwen =>
      FalAIImageEditor.edit_image_qwen self (arg_image_url a) (arg_prompt a)
  | RemoveBackground =>
      FalAIImageEditor.remove_background self (arg_image_url a)
  | UpscaleImage =>
      FalAIImageEditor.upscale_image self (arg_image_url a) (arg_scale a)
  end.

(** Its [try] suite. *)
Definition call_try (self : FalAIImageEditor.t) (op : operation)
           (a : call_args) : M pyval :=
  match op with
  | EditFlux =>
      FalAIImageEditor.edit_image_flux_try self (arg_image_url a)
                                           (arg_prompt a) (arg_strength a)
  | EditQwen =>
      FalAIImageEditor.edit_image_qwen_try self (arg_image_url a) (arg_prompt a)
  | RemoveBackground =>
      FalAIImageEditor.remove_background_try self (arg_image_url a)
  | UpscaleImage =>
      FalAIImageEditor.upscale_image_try self (arg_image_url a) (arg_scale a)
  end.

(** The one request an operation issues. *)
Definition endpoint (op : operation) : string :=
  match op with
  | EditFlux => "/fal-ai/flux/dev/image-to-image"
  | EditQwen => "/fal-ai/qwen-image-edit"
  | RemoveBackground => "/fal-ai/imageutils/rembg"
  | UpscaleImage => "/fal-ai/esrgan"
  end.

Definition payload (op : operation) (a : call_args) : pyval :=
  match op with
  | EditFlux =>
      PDict [("image_url", arg_image_url a); ("prompt", arg_prompt a);
             ("strength", arg_strength a); ("num_inference_steps", PInt 28);
             ("guidance_scale", PFloat 3.5%float)]
  | EditQwen =>
      PDict [("image_url", arg_image_url a); ("prompt", arg_prompt a)]
  | RemoveBackground => PDict [("image_url", arg_image_url a)]
  | UpscaleImage =>
      PDict [("image_url", arg_image_url a); ("scale", arg_scale a)]
  end.

Definition request_of (self : FalAIImageEditor.t) (op : operation)
           (a : call_args) : request :=
  {| url := FalAIImageEditor.base_url self ++ endpoint op;
     json_body := payload op a;
     headers :=
       [("Authorization", "Key " ++ FalAIImageEditor.api_key self);
        ("Content-Type", "application/json")] |}.

(** The fixed model label of an operation. *)
Definition model_label (op : operation) : string :=
  match op with
  | EditFlux => "FLUX Dev"
  | EditQwen => "Qwen Image Edit"
  | RemoveBackground => "Background Removal"
  | UpscaleImage => "ESRGAN Upscaler"
  end.

(** The prompt of a success: the caller's, or the synthesized one. *)
Definition description (op : operation) (a : call_args) : pyval :=
  match op with
  | EditFlux | EditQwen => arg_prompt a
  | RemoveBackground => PStr "Remove background"
  | UpscaleImage => PStr ("Upscale " ++ py_str (arg_scale a) ++ "x")
  end.

(** The prefix of the line an operation logs when it catches. *)
Definition log_prefix (op : operation) : string :=
  match op with
  | EditFlux => "Error editing image with FLUX: "
  | EditQwen => "Error editing image with Qwen: "
  | RemoveBackground => "Error removing background: "
  | UpscaleImage => "Error upscaling image: "
  end.

(** The documented shape of a 200 body holding the URL [u]:
    [{"images": [{"url": u, ...}, ...], ...}] for the FLUX edit,
    [{"image": {"url": u, ...}, ...}] for the other three. *)
Definition documented_shape (op : operation) (b : pyval) (u : pyval) : Prop :=
  match op with
  | EditFlux =>
      exists d d1 rest,
        b = PDict d /\
        dict_get d "images" = Some (PList (PDict d1 :: rest)) /\
        dict_get d1 "url" = Some u
  | EditQwen | RemoveBackground | UpscaleImage =>
      exists d d1,
        b = PDict d /\
        dict_get d "image" = Some (PDict d1) /\
        dict_get d1 "url" = Some u
  end.

(** The field path an operation follows in a parsed body. *)
Definition extract (op : operation) (b : pyval) : result pyval :=
  match op with
  | EditFlux =>
      match subscript_key b "images" with
      | Raise e => Raise e
      | Return images =>
          match subscript_0 images with
          | Raise e => Raise e
          | Return first => subscript_key first "url"
          end
      end
  | EditQwen | RemoveBackground | UpscaleImage =>
      match subscript_key b "image" with
      | Raise e => Raise e
      | Return image => subscript_key image "url"
      end
  end.

End Vocabulary.

(** What the client posts for an upscale by 2 of [u]. *)
Definition upscale_by_2 (self : FalAIImageEditor.t) (u : pyval) : request :=
  {| url := FalAIImageEditor.base_url self ++ "/fal-ai/esrgan";
     json_body := PDict [("image_url", u); ("scale", PInt 2)];
     headers :=
       [("Authorization", "Key " ++ FalAIImageEditor.api_key self);
        ("Content-Type", "application/json")] |}.

(** What the client posts for a FLUX edit of [u] at strength 0.8. *)
Definition flux_at_default (self : FalAIImageEditor.t) (u p : pyval) : request :=
  {| url := FalAIImageEditor.base_url self ++ "/fal-ai/flux/dev/image-to-image";
     json_body :=
       PDict [("image_url", u); ("prompt", p);
              ("strength", PFloat 0.8%float);
              ("num_inference_steps", PInt 28);
              ("guidance_scale", PFloat 3.5%float)];
     headers :=
       [("Authorization", "Key " ++ FalAIImageEditor.api_key self);
        ("Content-Type", "application/json")] |}.

(** [needle] occurs in [hay]. *)
Definition contains (needle hay : string) : Prop :=
  exists before after, hay = before ++ needle ++ after.

(** The four POST routes of the HTTP front-end. *)
Inductive route : Type :=
| PostEditFlux
| PostEditQwen
| PostRemoveBg
| PostUpscale.

Definition path (r : route) : string :=
  match r with
  | PostEditFlux => "/edit/flux"
  | PostEditQwen => "/edit/qwen"
  | PostRemoveBg => "/remove-bg"
  | PostUpscale => "/upscale"
  end.

(** The view function bound to a route. *)
Definition serve {rt : Runtime} (editor : Editor.t) (r : route)
  : pyval -> M flask_response :=
  match r with
  | PostEditFlux => edit_flux editor
  | PostEditQwen => edit_qwen editor
  | PostRemoveBg => remove_bg editor
  | PostUpscale => upscale editor
  end.

(** The fields a route tests before it calls the client, and the text of
    its 400 response. *)
Definition route_required (r : route) : list string :=
  match r with
  | PostEditFlux | PostEditQwen => ["image_url"; "prompt"]
  | PostRemoveBg | PostUpscale => ["image_url"]
  end.

Definition route_error (r : route) : string :=
  match r with
  | PostEditFlux | PostEditQwen => "image_url and prompt are required"
  | PostRemoveBg | PostUpscale => "image_url is required"
  end.

(** The conversion of its optional field that a route performs before it
    validates: [float(data.get("strength", 0.8))] on /edit/flux,
    [int(data.get("scale", 2))] on /upscale, none on the other two. *)
Definition convert_optional {rt : Runtime} (r : route) (d : dict) : result unit :=
  match r with
  | PostEditFlux =>
      match py_float (get_or d "strength" (PFloat 0.8%float)) with
      | Raise e => Raise e
      | Return _ => Return tt
      end
  | PostUpscale =>
      match py_int (get_or d "scale" (PInt 2)) with
      | Raise e => Raise e
      | Return _ => Return tt
      end
  | PostEditQwen | PostRemoveBg => Return tt
  end.

(** The answer of a route to a request that it rejects. *)
Definition rejection {rt : Runtime} (r : route) (d : dict) : M flask_response :=
  fun w =>
    match convert_optional r d with
    | Raise e => (Raise e, w)
    | Return _ => (Return (bad_request (route_error r)), w)
    end.

(** What a client returns: one of its two dicts. *)
Definition envelope (v : pyval) : Prop :=
  (exists u m p, v = success_dict u m p) \/ (exists msg, v = failure_dict msg).

(** The text of the validation error of a tool, from its [required] list. *)
Definition required_error (t : Tool) : string :=
  "Error: " ++ join " and " (required t)
            ++ match required t with
               | [_] => " is required"
               | _ => " are required"
               end.

(* ------------------------------------------------------------------ *)
(** ** Concrete values for running the model *)

(** A runtime for the runs below, none of which prints a float, quotes a
    str with [repr] or parses a str: it quotes plainly and parses nothing. *)
Definition plain_runtime : Runtime :=
  {| float_repr := fun _ => "<float>";
     str_repr := fun s => "'" ++ s ++ "'";
     float_of_str := fun _ => None;
     int_of_str := fun _ => None |}.

Definition test_editor : FalAIImageEditor.t :=
  {| FalAIImageEditor.api_key := "test-key";
     FalAIImageEditor.base_url := "https://queue.fal.run" |}.

(** A fresh world whose vendor gives the same outcome to every request. *)
Definition world_answering (o : outcome) : world :=
  {| vendor := fun _ _ => o; calls := []; log := [] |}.

(** A mock client all of whose methods raise [e]. *)
Definition raising_editor (e : exn) : Editor.t :=
  {| Editor.edit_image_flux := fun _ _ _ => raise e;
     Editor.edit_image_qwen := fun _ _ => raise e;
     Editor.remove_background := fun _ => raise e;
     Editor.upscale_image := fun _ _ => raise e |}.

(** The test client as the object the front-ends call. *)
Definition test_object : Editor.t := image_editor (rt := plain_runtime) test_editor.

(** Bodies of the documented shape, arguments, and three worlds: one whose
    vendor answers 200, one whose vendor answers 503, one whose vendor
    cannot be reached. *)
Definition flux_body : pyval :=
  PDict [("images", PList [PDict [("url", PStr "https://cdn.fal/out.png")]])].

Definition image_body : pyval :=
  PDict [("image", PDict [("url", PStr "https://cdn.fal/out.png")])].

Definition sample_args : call_args :=
  {| arg_image_url := PStr "http://x/img.png";
     arg_prompt := PStr "add a hat";
     arg_strength := PFloat 0.8%float;
     arg_scale := PInt 2 |}.

Definition ok_world (b : pyval) : world :=
  world_answering
    (Responded {| status_code := 200; text := "{...}"; json := Return b |}).

Definition busy_world : world :=
  world_answering
    (Responded {| status_code := 503; text := "Service Unavailable";
                  json := Raise (ValueError "Expecting value: line 1 column 1 (char 0)") |}).

Definition down_world : world :=
  world_answering
    (Failed {| exc_type := "ConnectError"; exc_str := "All connection attempts failed" |}).

(* ------------------------------------------------------------------ *)
(** ** The front-ends, operation by operation *)

(** The method of the client object that carries out an operation. *)
Definition invoke (editor : Editor.t) (op : operation) (a : call_args) : M pyval :=
  match op with
  | EditFlux =>
      Editor.edit_image_flux editor (arg_image_url a) (arg_prompt a)
                             (arg_strength a)
  | EditQwen => Editor.edit_image_qwen editor (arg_image_url a) (arg_prompt a)
  | RemoveBackground => Editor.remove_background editor (arg_image_url a)
  | UpscaleImage => Editor.upscale_image editor (arg_image_url a) (arg_scale a)
  end.

(** The tool and the route that serve an operation. *)
Definition operation_tool (op : operation) : string :=
  match op with
  | EditFlux => "edit_image_flux"
  | EditQwen => "edit_image_qwen"
  | RemoveBackground => "remove_background"
  | UpscaleImage => "upscale_image"
  end.

Definition operation_route (op : operation) : route :=
  match op with
  | EditFlux => PostEditFlux
  | EditQwen => PostEditQwen
  | RemoveBackground => PostRemoveBg
  | UpscaleImage => PostUpscale
  end.

(** What [handle_call_tool] reads from its mapping: the values as given,
    [None] for an absent required one, the default for an absent optional
    one. *)
Definition raw_args (d : dict) : call_args :=
  {| arg_image_url := get_or d "image_url" PNone;
     arg_prompt := get_or d "prompt" PNone;
     arg_strength := get_or d "strength" (PFloat 0.8%float);
     arg_scale := get_or d "scale" (PInt 2) |}.

(** What a route reads from its body: as above, but [strength] through
    [float()] on /edit/flux and [scale] through [int()] on /upscale. *)
Definition converted_args {rt : Runtime} (op : operation) (d : dict)
  : result call_args :=
  match op with
  | EditFlux =>
      match py_float (get_or d "strength" (PFloat 0.8%float)) with
      | Raise e => Raise e
      | Return f =>
          Return {| arg_image_url := get_or d "image_url" PNone;
                    arg_prompt := get_or d "prompt" PNone;
                    arg_strength := PFloat f;
                    arg_scale := get_or d "scale" (PInt 2) |}
      end
  | UpscaleImage =>
      match py_int (get_or d "scale" (PInt 2)) with
      | Raise e => Raise e
      | Return z =>
          Return {| arg_image_url := get_or d "image_url" PNone;
                    arg_prompt := get_or d "prompt" PNone;
                    arg_strength := get_or d "strength" (PFloat 0.8%float);
                    arg_scale := PInt z |}
      end
  | EditQwen | RemoveBackground => Return (raw_args d)
  end.

(** The test both front-ends apply to the required values of an operation:
    [not image_url or not prompt] fails, or [not image_url] fails. *)
Definition passes_validation (op : operation) (d : dict) : bool :=
  match op with
  | EditFlux | EditQwen =>
      truthy (get_or d "image_url" PNone) && truthy (get_or d "prompt" PNone)
  | RemoveBackground | UpscaleImage => truthy (get_or d "image_url" PNone)
  end.

(** The text [format_response] builds from a success and from a failure. *)
Definition success_text {rt : Runtime} (model prompt image_url : pyval) : string :=
  "✅ Image edited successfully!" ++ nl ++ nl
    ++ "**Model:** " ++ py_str model ++ nl
    ++ "**Prompt:** " ++ py_str prompt ++ nl
    ++ "**Result:** " ++ py_str image_url.

Definition failure_text (error : string) : string :=
  "❌ Error editing image: " ++ error.

(** [calls] grew by nothing, or by one request. *)
Definition at_most_one_call (w w' : world) : Prop :=
  calls w' = calls w \/ exists req, calls w' = (calls w ++ [req])%list.

(* ------------------------------------------------------------------ *)
(** ** The script: module level, [main] and the [__main__] block *)

Inductive level : Type :=
| INFO
| ERROR.

(** How a run of the script ends up: an exception nobody catches, a
    [sys.exit(code)], or one of the two servers running
    ([app.run(host=..., port=...)], or [server.run] over stdio with the
    name and version of its [InitializationOptions]). *)
Inductive ending : Type :=
| Uncaught (e : exn)
| SystemExit (code : Z)
| ServeHttp (host : string) (port : Z)
| ServeStdio (server_name server_version : string).

(** [NotificationOptions] of the MCP library; [None] stands for the [None]
    the source passes in its place. *)
Record NotificationOptions : Type := {
  prompts_changed : bool;
  resources_changed : bool;
  tools_changed : bool
}.

(** [server.get_capabilities(notification_options, experimental_capabilities)]
    of the MCP library, for this server: a [list_tools] handler is
    registered, so it reads [notification_options.tools_changed] for the
    tools capability, and [None] has no such attribute. *)
Definition get_capabilities (notification_options : option NotificationOptions)
  : result bool :=
  match notification_options with
  | None =>
      Raise (AttributeError "'NoneType' object has no attribute 'tools_changed'")
  | Some options => Return (tools_changed options)
  end.

(** [os.environ.get(k)] *)
Definition environ_get (environ : string -> option string) (k : string) : pyval :=
  match environ k with
  | Some s => PStr s
  | None => PNone
  end.

(** [main()]: its ending and the lines it logs.  The arguments of
    [server.run] are evaluated before the call, among them
    [server.get_capabilities(notification_options=None, ...)]. *)
Definition main (environ : string -> option string)
  : ending * list (level * string) :=
  let started := [(INFO, "Starting Fal.ai Image Editor MCP Server...")] in
  if negb (truthy (environ_get environ "FAL_KEY")) then
    (SystemExit 1,
     (started ++ [(ERROR, "FAL_KEY environment variable is required!")])%list)
  else
    match get_capabilities None with
    | Raise e => (Uncaught e, started)
    | Return _ => (ServeStdio "fal-ai-image-editor" "1.0.0", started)
    end.

(** The script run as a program, given [sys.argv] and [os.environ]: the
    module-level [image_editor = FalAIImageEditor()], then the [__main__]
    block. *)
Definition script {rt : Runtime} (argv : list string)
           (environ : string -> option string)
  : ending * list (level * string) :=
  match FalAIImageEditor.init (environ "FAL_KEY") with
  | Raise e => (Uncaught e, [])
  | Return _ =>
      let run_http :=
        py_or (py_or (PBool (existsb (String.eqb "--http") argv))
                     (environ_get environ "PORT"))
              (environ_get environ "RAILWAY_ENVIRONMENT") in
      if truthy run_http then
        if negb (truthy (environ_get environ "FAL_KEY")) then
          (SystemExit 1, [(ERROR, "FAL_KEY environment variable is required!")])
        else
          match py_int (PStr (match environ "PORT" with
                              | Some s => s
                              | None => "8000"
                              end)) with
          | Raise e => (Uncaught e, [])
          | Return port => (ServeHttp "0.0.0.0" port, [])
          end
      else main environ
  end.

(** A runtime whose [int()] reads the unsigned ASCII decimal literals as
    Python does and rejects every other str; the rest as [plain_runtime]. *)
Fixpoint parse_digits (s : string) (acc : Z) : option Z :=
  match s with
  | "" => Some acc
  | String c s' =>
      let n := nat_of_ascii c in
      if ((48 <=? n) && (n <=? 57))%nat
      then parse_digits s' (10 * acc + Z.of_nat (n - 48))
      else None
  end.

Definition parse_decimal (s : string) : option Z :=
  match s with
  | "" => None
  | _ => parse_digits s 0
  end.

Definition decimal_runtime : Runtime :=
  {| float_repr := fun _ => "<float>";
     str_repr := fun s => "'" ++ s ++ "'";
     float_of_str := fun _ => None;
     int_of_str := parse_decimal |}.

(** An environment given as a list of bindings. *)
Fixpoint environ_of (bindings : list (string * string)) (k : string)
  : option string :=
  match bindings with
  | [] => None
  | (k', v) :: rest => if String.eqb k' k then Some v else environ_of rest k
  end.

(* ------------------------------------------------------------------ *)
(** ** The Flask app around the views, and the two serving loops *)

(** What the caller of the HTTP front-end receives: a status, and the JSON
    a view gave to [jsonify] or an HTML page of the framework. *)
Inductive reply_content : Type :=
| JsonBody (v : pyval)
| HtmlBody (html : string).

Record http_reply : Type := {
  reply_status : Z;
  reply_content_of : reply_content
}.

(** Flask's answer when a view raises.  [create_http_app] registers no
    error handler and the app is run without debug, so
    [Flask.handle_exception] answers with the page of werkzeug's
    [InternalServerError]; the page holds nothing of the exception. *)
Definition internal_server_error : http_reply :=
  {| reply_status := 500;
     reply_content_of :=
       HtmlBody
         ("<!doctype html>" ++ nl ++ "<html lang=en>" ++ nl
            ++ "<title>500 Internal Server Error</title>" ++ nl
            ++ "<h1>Internal Server Error</h1>" ++ nl
            ++ "<p>The server encountered an internal error and was unable to complete your request. Either the server is overloaded or there is an error in the application.</p>"
            ++ nl) |}.

(** [Flask.wsgi_app] around a view:
    [try: full_dispatch_request()  except Exception as e: handle_exception(e)].
    The framework reports the exception through [app.logger], which is not
    the module's [logger]; [log] keeps the latter's lines only. *)
Definition wsgi_app (view : M flask_response) : M http_reply :=
  try_except
    (resp <- view ;;
     ret {| reply_status := status resp;
            reply_content_of := JsonBody (body resp) |})
    (fun _ => ret internal_server_error).

(** A request to one of the five endpoints of the app. *)
Inductive http_request : Type :=
| GetHealth
| Post (r : route) (parsed : pyval).

(** The view the app runs for a request, and the app's answer to it. *)
Definition view_of {rt : Runtime} (editor : Editor.t) (req : http_request)
  : M flask_response :=
  match req with
  | GetHealth => health
  | Post r parsed => serve editor r parsed
  end.

Definition app_handle {rt : Runtime} (editor : Editor.t) (req : http_request)
  : M http_reply :=
  wsgi_app (view_of editor req).


(* ------------------------------------------------------------------ *)
(** ** Strings *)

Lemma append_assoc (a b c : string) : (a ++ b) ++ c = a ++ (b ++ c).
Proof.
  induction a as [|x a IH]; simpl.
  - reflexivity.
  - now rewrite IH.
Qed.

Lemma append_empty_r (a : string) : a ++ "" = a.
Proof.
  induction a as [|x a IH]; simpl; [reflexivity | now rewrite IH].
Qed.

Lemma contains_middle (a b c : string) : contains b (a ++ b ++ c).
Proof. now exists a, c. Qed.

Lemma contains_end (a b : string) : contains b (a ++ b).
Proof. exists a, "". now rewrite append_empty_r. Qed.

Lemma contains_after (p a b : string) : contains a b -> contains a (p ++ b).
Proof.
  intros (x & y & ->). exists (p ++ x), y. now rewrite append_assoc.
Qed.

(* ------------------------------------------------------------------ *)
(** ** The client *)

Section ClientFacts.
Context {rt : Runtime}.
Variable self : FalAIImageEditor.t.

(** Each method is its [try] suite under the shared [except] clause. *)
Lemma call_is_try_except (op : operation) (a : call_args) :
  call self op a =
  try_except (call_try self op a)
             (FalAIImageEditor.on_exception (log_prefix op)).
Proof. destruct op; reflexivity. Qed.

(** What the [try] suite does, by the vendor's outcome. *)
Lemma call_try_run (op : operation) (a : call_args) (w : world) :
  call_try self op a w =
  let req := request_of self op a in
  match vendor w (calls w) req with
  | Failed e => (Raise e, with_call w req)
  | Responded r =>
      if status_code r =? 200 then
        match json r with
        | Raise e => (Raise e, with_call w req)
        | Return b =>
            match extract op b with
            | Raise e => (Raise e, with_call w req)
            | Return u =>
                (Return (success_dict u (model_label op) (description op a)),
                 with_call w req)
            end
        end
      else (Return (FalAIImageEditor.api_request_failed r), with_call w req)
  end.
Proof.
  destruct op; cbn -[Z.eqb String.append subscript_key subscript_0];
    unfold FalAIImageEditor.edit_image_flux_try,
      FalAIImageEditor.edit_image_qwen_try,
      FalAIImageEditor.remove_background_try,
      FalAIImageEditor.upscale_image_try, bind, post, request_of,
      FalAIImageEditor.request_headers;
    cbn -[Z.eqb String.append subscript_key subscript_0];
    (destruct (vendor w (calls w) _) as [e | r]; [reflexivity |]);
    (destruct (status_code r =? 200); [| reflexivity]);
    unfold lift, ret; destruct (json r) as [e | b]; try reflexivity.
  - destruct (subscript_key b "images") as [e | images]; [reflexivity |].
    destruct (subscript_0 images) as [e | first]; [reflexivity |].
    destruct (subscript_key first "url"); reflexivity.
  - destruct (subscript_key b "image") as [e | image]; [reflexivity |].
    destruct (subscript_key image "url"); reflexivity.
  - destruct (subscript_key b "image") as [e | image]; [reflexivity |].
    destruct (subscript_key image "url"); reflexivity.
  - destruct (subscript_key b "image") as [e | image]; [reflexivity |].
    destruct (subscript_key image "url"); reflexivity.
Qed.

(** The [except] clause turns a raised [e] into the failure dict of
    [str(e)], and logs one line. *)
Lemma on_exception_run (prefix : string) (e : exn) (w : world) :
  FalAIImageEditor.on_exception prefix e w =
  (Return (failure_dict (exc_str e)), with_log w (prefix ++ exc_str e)).
Proof. reflexivity. Qed.

Lemma call_of_return (op : operation) (a : call_args) (w w' : world) (v : pyval) :
  call_try self op a w = (Return v, w') -> call self op a w = (Return v, w').
Proof.
  intros H. rewrite call_is_try_except. unfold try_except. now rewrite H.
Qed.

Lemma call_of_raise (op : operation) (a : call_args) (w w' : world) (e : exn) :
  call_try self op a w = (Raise e, w') ->
  call self op a w =
  (Return (failure_dict (exc_str e)), with_log w' (log_prefix op ++ exc_str e)).
Proof.
  intros H. rewrite call_is_try_except. unfold try_except. now rewrite H.
Qed.

(** A documented body yields its URL along the field path. *)
Lemma extract_documented (op : operation) (b u : pyval) :
  documented_shape op b u -> extract op b = Return u.
Proof.
  destruct op; simpl.
  - intros (d & d1 & rest & -> & Hi & Hu). simpl. rewrite Hi. simpl.
    now rewrite Hu.
  - intros (d & d1 & -> & Hi & Hu). simpl. rewrite Hi. simpl. now rewrite Hu.
  - intros (d & d1 & -> & Hi & Hu). simpl. rewrite Hi. simpl. now rewrite Hu.
  - intros (d & d1 & -> & Hi & Hu). simpl. rewrite Hi. simpl. now rewrite Hu.
Qed.

(** Every run of a method returns one of the two dicts, and issues
    exactly its one request. *)
Lemma call_returns (op : operation) (a : call_args) (w : world) :
  exists v w', call self op a w = (Return v, w') /\
               envelope v /\
               calls w' = (calls w ++ [request_of self op a])%list.
Proof.
  assert (Hf : forall msg, envelope (failure_dict msg)) by (right; eauto).
  assert (Hs : forall u m p, envelope (success_dict u m p)) by (left; eauto).
  pose proof (call_try_run op a w) as H. cbv zeta in H.
  destruct (vendor w (calls w) (request_of self op a)) as [e | r].
  - apply call_of_raise in H. eauto 6.
  - destruct (status_code r =? 200).
    + destruct (json r) as [e | b].
      * apply call_of_raise in H. eauto 6.
      * destruct (extract op b) as [e | u].
        -- apply call_of_raise in H. eauto 6.
        -- apply call_of_return in H. eauto 6.
    + apply call_of_return in H. unfold FalAIImageEditor.api_request_failed in H.
      eauto 6.
Qed.

End ClientFacts.

Section ClientClaims.
Context {rt : Runtime}.
Variable self : FalAIImageEditor.t.

(** C1.  For each of the four client operations: when the vendor answers
    the operation's request with status 200 and a body of the documented
    shape holding the URL [u] (first entry of ["images"] for
    [edit_image_flux], the ["image"] object for the other three), the
    method returns the success dict whose [image_url] is [u] itself, whose
    [model] is the operation's fixed label, and whose [prompt] is the
    caller's prompt, or ["Remove background"], or ["Upscale {scale}x"];
    one request has been issued. *)
Theorem success_on_200_documented_body
  (op : operation) (a : call_args) (w : world) (r : response) (b u : pyval) :
  vendor w (calls w) (request_of self op a) = Responded r ->
  status_code r = 200 ->
  json r = Return b ->
  documented_shape op b u ->
  call self op a w =
  (Return (PDict [("success", PBool true); ("image_url", u);
                  ("model", PStr (model_label op));
                  ("prompt", description op a)]),
   with_call w (request_of self op a)).
Proof.
  intros Hv Hs Hj Hd. apply call_of_return.
  rewrite call_try_run. cbv zeta. rewrite Hv, Hs, Hj. simpl.
  now rewrite (extract_documented op b u Hd).
Qed.

(** C2.  For each of the four client operations: when the vendor answers
    with a status other than 200, the method returns the failure dict
    whose error is ["API request failed: {status} {text}"], a message
    that contains the decimal status code and the raw body text. *)
Theorem failure_on_non_200
  (op : operation) (a : call_args) (w : world) (r : response) :
  vendor w (calls w) (request_of self op a) = Responded r ->
  status_code r <> 200 ->
  exists msg,
    call self op a w =
    (Return (PDict [("success", PBool false); ("error", PStr msg)]),
     with_call w (request_of self op a)) /\
    msg = "API request failed: " ++ str_int (status_code r) ++ " " ++ text r /\
    contains (str_int (status_code r)) msg /\
    contains (text r) msg.
Proof.
  intros Hv Hs. eexists. split; [| split; [reflexivity | split]].
  - apply call_of_return. rewrite call_try_run. cbv zeta. rewrite Hv.
    apply Z.eqb_neq in Hs. rewrite Hs. reflexivity.
  - apply contains_middle.
  - do 2 apply contains_after. apply contains_end.
Qed.

(** C3.  For each of the four client operations, in every world and on
    every argument: the method returns a value (it never raises); and
    whenever its [try] suite raises [e] - the POST itself, [json()], or
    the walk along the field path - the value is the failure dict whose
    error is [str(e)], with one line logged. *)
Theorem exceptions_become_failures
  (op : operation) (a : call_args) (w : world) :
  (exists v w', call self op a w = (Return v, w')) /\
  (forall e w',
      call_try self op a w = (Raise e, w') ->
      call self op a w =
      (Return (PDict [("success", PBool false); ("error", PStr (exc_str e))]),
       with_log w' (log_prefix op ++ exc_str e))) /\
  (forall e,
      vendor w (calls w) (request_of self op a) = Failed e ->
      call self op a w =
      (Return (PDict [("success", PBool false); ("error", PStr (exc_str e))]),
       with_log (with_call w (request_of self op a))
                (log_prefix op ++ exc_str e))) /\
  (forall r e,
      vendor w (calls w) (request_of self op a) = Responded r ->
      status_code r = 200 ->
      json r = Raise e ->
      call self op a w =
      (Return (PDict [("success", PBool false); ("error", PStr (exc_str e))]),
       with_log (with_call w (request_of self op a))
                (log_prefix op ++ exc_str e))) /\
  (forall r b e,
      vendor w (calls w) (request_of self op a) = Responded r ->
      status_code r = 200 ->
      json r = Return b ->
      extract op b = Raise e ->
      call self op a w =
      (Return (PDict [("success", PBool false); ("error", PStr (exc_str e))]),
       with_log (with_call w (request_of self op a))
                (log_prefix op ++ exc_str e))).
Proof.
  split; [| split; [| split; [| split]]].
  - destruct (call_returns self op a w) as (v & w' & H & _). eauto.
  - intros e w'. apply call_of_raise.
  - intros e Hv. apply call_of_raise. rewrite call_try_run. cbv zeta.
    now rewrite Hv.
  - intros r e Hv Hs Hj. apply call_of_raise. rewrite call_try_run.
    cbv zeta. now rewrite Hv, Hs, Hj.
  - intros r b e Hv Hs Hj He. apply call_of_raise. rewrite call_try_run.
    cbv zeta. rewrite Hv, Hs, Hj. simpl. now rewrite He.
Qed.

End ClientClaims.

(* ------------------------------------------------------------------ *)
(** ** The front-ends *)

Lemma args_of_real_client {rt : Runtime} (self : FalAIImageEditor.t)
      (u p s c : pyval) :
  Editor.edit_image_flux (image_editor self) u p s =
    call self EditFlux {| arg_image_url := u; arg_prompt := p;
                          arg_strength := s; arg_scale := c |} /\
  Editor.edit_image_qwen (image_editor self) u p =
    call self EditQwen {| arg_image_url := u; arg_prompt := p;
                          arg_strength := s; arg_scale := c |} /\
  Editor.remove_background (image_editor self) u =
    call self RemoveBackground {| arg_image_url := u; arg_prompt := p;
                                  arg_strength := s; arg_scale := c |} /\
  Editor.upscale_image (image_editor self) u c =
    call self UpscaleImage {| arg_image_url := u; arg_prompt := p;
                              arg_strength := s; arg_scale := c |}.
Proof. repeat split. Qed.

Section FrontEndFacts.
Context {rt : Runtime}.
Variable editor : Editor.t.

Lemma request_data_dict (d : dict) : request_data (PDict d) = PDict d.
Proof. destruct d; reflexivity. Qed.

(** A malformed or absent body is read as the empty dict. *)
Lemma request_data_none : request_data PNone = PDict [].
Proof. reflexivity. Qed.

(** Formatting reads the result and touches nothing. *)
Lemma format_response_pure (result : pyval) (w : world) :
  exists r, format_response result w = (r, w).
Proof.
  unfold format_response, bind, lift, ret.
  destruct (subscript_key result "success") as [e | success]; [eauto |].
  destruct (truthy success).
  - destruct (subscript_key result "model"); [eauto |].
    destruct (subscript_key result "prompt"); [eauto |].
    destruct (subscript_key result "image_url"); eauto.
  - destruct (subscript_key result "error"); eauto.
Qed.

(** Formatting one of the client's two dicts returns. *)
Lemma format_response_envelope (v : pyval) (w : world) :
  envelope v -> exists r, format_response v w = (Return r, w).
Proof.
  intros [(u & m & p & ->) | (msg & ->)]; eexists; reflexivity.
Qed.

Lemma respond_envelope (v : pyval) (w : world) :
  envelope v -> exists r, respond v w = (Return r, w).
Proof.
  intros [(u & m & p & ->) | (msg & ->)]; eexists; reflexivity.
Qed.

(** The outermost handler of [handle_call_tool] returns whatever its
    [try] suite does. *)
Lemma handle_call_tool_returns (name : string) (arguments : dict) (w : world) :
  exists r w', handle_call_tool editor name arguments w = (Return r, w').
Proof.
  unfold handle_call_tool, try_except.
  destruct (handle_call_tool_try editor name arguments w) as [[e | r] w'].
  - unfold handle_call_tool_except, bind, logger_error, ret. eauto.
  - eauto.
Qed.

Lemma handle_call_tool_of_return
      (name : string) (arguments : dict) (w w' : world) (r : CallToolResult) :
  handle_call_tool_try editor name arguments w = (Return r, w') ->
  handle_call_tool editor name arguments w = (Return r, w').
Proof. intros H. unfold handle_call_tool, try_except. now rewrite H. Qed.

Lemma handle_call_tool_of_raise
      (name : string) (arguments : dict) (w w' : world) (e : exn) :
  handle_call_tool_try editor name arguments w = (Raise e, w') ->
  handle_call_tool editor name arguments w =
  (Return (error_result ("Internal error: " ++ exc_str e)),
   with_log w' ("Error in handle_call_tool: " ++ exc_str e)).
Proof. intros H. unfold handle_call_tool, try_except. now rewrite H. Qed.

(** A required argument that is absent or falsy stops the tool handler
    before the client. *)
Lemma tool_rejects (t : Tool) (k : string) (arguments : dict) (w : world) :
  In t TOOLS ->
  In k (required t) ->
  truthy (get_or arguments k PNone) = false ->
  handle_call_tool_try editor (name t) arguments w =
  (Return (error_result (required_error t)), w).
Proof.
  intros Ht Hk Hf. simpl in Ht.
  destruct Ht as [<- | [<- | [<- | [<- | []]]]]; simpl in Hk;
    repeat match goal with
           | H : _ \/ _ |- _ => destruct H as [<- | H]
           | H : False |- _ => destruct H
           end;
    unfold handle_call_tool_try; simpl; rewrite Hf; simpl;
    rewrite ?orb_true_r; reflexivity.
Qed.

(** A required field that is absent or falsy stops a route before the
    client; all that has run is the conversion of the optional field. *)
Lemma route_rejects (r : route) (k : string) (d : dict) (w : world) :
  In k (route_required r) ->
  truthy (get_or d k PNone) = false ->
  serve editor r (PDict d) w = rejection r d w.
Proof.
  intros Hk Hf.
  destruct r; simpl in Hk;
    repeat match goal with
           | H : _ \/ _ |- _ => destruct H as [<- | H]
           | H : False |- _ => destruct H
           end;
    unfold serve, rejection, convert_optional, edit_flux, edit_qwen,
      remove_bg, upscale;
    rewrite request_data_dict; unfold py_get, bind, lift, ret;
    fold (get_or d "image_url" PNone); fold (get_or d "prompt" PNone);
    fold (get_or d "strength" (PFloat 0.8%float));
    fold (get_or d "scale" (PInt 2));
    rewrite Hf; simpl; rewrite ?orb_true_r;
    try reflexivity;
    try (destruct (py_float _); reflexivity);
    try (destruct (py_int _); reflexivity).
Qed.

End FrontEndFacts.

Section FrontEndClaims.
Context {rt : Runtime}.
Variable editor : Editor.t.

(** In the tool-protocol front-end every exception of the dispatch is
    caught by the outermost handler: [handle_call_tool]
    returns a result on every name, every argument mapping, every client
    object and every world; and when its [try] suite raises [e], that
    result is the error result with text ["Internal error: {e}"], with one
    line logged. *)
Theorem tool_handler_catches_everything
  (tool_name : string) (arguments : dict) (w : world) :
  (exists r w', handle_call_tool editor tool_name arguments w = (Return r, w')) /\
  (forall e w',
      handle_call_tool_try editor tool_name arguments w = (Raise e, w') ->
      handle_call_tool editor tool_name arguments w =
      (Return (error_result ("Internal error: " ++ exc_str e)),
       with_log w' ("Error in handle_call_tool: " ++ exc_str e))).
Proof.
  split.
  - apply handle_call_tool_returns.
  - intros e w'. apply handle_call_tool_of_raise.
Qed.



(** C9.  [GET /health] returns status 200 and the body
    [{"ok": true, "service": "fal-ai-mcp-http"}] in every world and leaves
    the world as it was; the view takes neither the client object nor
    the API key, and issues no call. *)
Theorem health_is_unconditional (w : world) :
  health w =
  (Return {| body := PDict [("ok", PBool true);
                            ("service", PStr "fal-ai-mcp-http")];
             status := 200 |}, w).
Proof. reflexivity. Qed.

(** Validation tests truthiness, not presence.  For a falsy [v]
    (the empty string, [None], [0], ...): a tool call whose required
    argument [k] is [v] gets the very error result of the call in which
    [k] is absent, and a POST whose required field [k] is [v] gets the
    very answer of the POST in which [k] is absent and the rest is the
    same - the 400 response of the route, once the conversion of the
    route's optional field has passed; in both front-ends the world is
    left as it was, whatever the client object: no call is made. *)
Theorem falsy_required_is_absent (v : pyval) :
  truthy v = false ->
  (forall t k arguments arguments' w,
      In t TOOLS ->
      In k (required t) ->
      dict_get arguments k = Some v ->
      dict_get arguments' k = None ->
      handle_call_tool editor (name t) arguments w =
      (Return (error_result (required_error t)), w) /\
      handle_call_tool editor (name t) arguments' w =
      handle_call_tool editor (name t) arguments w) /\
  (forall r k d d' w,
      In k (route_required r) ->
      dict_get d k = Some v ->
      dict_get d' k = None ->
      (forall k', k' <> k -> dict_get d' k' = dict_get d k') ->
      serve editor r (PDict d') w = serve editor r (PDict d) w /\
      snd (serve editor r (PDict d) w) = w /\
      (serve editor r (PDict d) w =
         (Return (bad_request (route_error r)), w) \/
       exists e, serve editor r (PDict d) w = (Raise e, w)) /\
      (convert_optional r d = Return tt ->
       serve editor r (PDict d) w =
       (Return (bad_request (route_error r)), w))).
Proof.
  intros Hv. split.
  - intros t k arguments arguments' w Ht Hk Ha Ha'.
    assert (H1 : truthy (get_or arguments k PNone) = false)
      by (unfold get_or; now rewrite Ha).
    assert (H2 : truthy (get_or arguments' k PNone) = false)
      by (unfold get_or; now rewrite Ha').
    rewrite (handle_call_tool_of_return editor _ _ _ _ _
               (tool_rejects editor t k arguments w Ht Hk H1)).
    rewrite (handle_call_tool_of_return editor _ _ _ _ _
               (tool_rejects editor t k arguments' w Ht Hk H2)).
    split; reflexivity.
  - intros r k d d' w Hk Hd Hd' Hrest.
    assert (H1 : truthy (get_or d k PNone) = false)
      by (unfold get_or; now rewrite Hd).
    assert (H2 : truthy (get_or d' k PNone) = false)
      by (unfold get_or; now rewrite Hd').
    rewrite (route_rejects editor r k d w Hk H1).
    rewrite (route_rejects editor r k d' w Hk H2).
    assert (Hc : convert_optional r d' = convert_optional r d).
    { destruct r; simpl in Hk;
        repeat match goal with
               | H : _ \/ _ |- _ => destruct H as [<- | H]
               | H : False |- _ => destruct H
               end;
        unfold convert_optional, get_or; try reflexivity;
        rewrite Hrest by discriminate; reflexivity. }
    unfold rejection. rewrite Hc.
    destruct (convert_optional r d) as [e | []]; simpl.
    + repeat split; [right; eauto | discriminate].
    + repeat split; left; reflexivity.
Qed.

End FrontEndClaims.

Section Defaults.
Context {rt : Runtime}.
Variable editor : Editor.t.
Variable self : FalAIImageEditor.t.

Lemma bind_real_client {A : Type} (op : operation) (a : call_args)
      (k : pyval -> M A) (w : world) :
  (forall v w', envelope v -> exists r, k v w' = (Return r, w')) ->
  exists r w',
    bind (call self op a) k w = (Return r, w') /\
    calls w' = (calls w ++ [request_of self op a])%list.
Proof.
  intros Hk. destruct (call_returns self op a w) as (v & w' & Hc & He & Hw).
  destruct (Hk v w' He) as (r & Hr).
  exists r, w'. unfold bind. rewrite Hc. now split.
Qed.

(** C8.  With a (truthy) [image_url] and no [scale], both front-ends
    invoke the upscale method with scale 2: [POST /upscale] and the tool
    handler run exactly as the call [upscale_image(image_url, 2)] followed
    by their rendering, and with the real client the one request issued
    has the JSON body [{"image_url": ..., "scale": 2}].  Likewise, with
    [image_url] and [prompt] and no [strength], the tool handler (and
    [POST /edit/flux]) invoke the FLUX edit with strength 0.8. *)
Theorem defaults_are_applied (w : world) :
  (forall d u,
      dict_get d "image_url" = Some u ->
      truthy u = true ->
      dict_get d "scale" = None ->
      upscale editor (PDict d) w =
        (result <- Editor.upscale_image editor u (PInt 2) ;; respond result) w /\
      handle_call_tool editor "upscale_image" d w =
        try_except
          (result <- Editor.upscale_image editor u (PInt 2) ;;
           format_response result)
          handle_call_tool_except w /\
      (exists resp w',
          upscale (image_editor self) (PDict d) w = (Return resp, w') /\
          calls w' = (calls w ++ [upscale_by_2 self u])%list) /\
      (exists res w',
          handle_call_tool (image_editor self) "upscale_image" d w =
            (Return res, w') /\
          calls w' = (calls w ++ [upscale_by_2 self u])%list)) /\
  (forall d u p,
      dict_get d "image_url" = Some u ->
      truthy u = true ->
      dict_get d "prompt" = Some p ->
      truthy p = true ->
      dict_get d "strength" = None ->
      edit_flux editor (PDict d) w =
        (result <- Editor.edit_image_flux editor u p (PFloat 0.8%float) ;;
         respond result) w /\
      handle_call_tool editor "edit_image_flux" d w =
        try_except
          (result <- Editor.edit_image_flux editor u p (PFloat 0.8%float) ;;
           format_response result)
          handle_call_tool_except w /\
      (exists resp w',
          edit_flux (image_editor self) (PDict d) w = (Return resp, w') /\
          calls w' = (calls w ++ [flux_at_default self u p])%list) /\
      (exists res w',
          handle_call_tool (image_editor self) "edit_image_flux" d w =
            (Return res, w') /\
          calls w' = (calls w ++ [flux_at_default self u p])%list)).
Proof.
  split.
  - intros d u Hu Ht Hs.
    assert (Hhttp : forall ed,
               upscale ed (PDict d) w =
               (result <- Editor.upscale_image ed u (PInt 2) ;;
                respond result) w).
    { intros ed. unfold upscale. rewrite request_data_dict.
      unfold py_get, bind, lift. rewrite Hu, Hs. simpl. now rewrite Ht. }
    assert (Htool : forall ed,
               handle_call_tool ed "upscale_image" d w =
               try_except
                 (result <- Editor.upscale_image ed u (PInt 2) ;;
                  format_response result)
                 handle_call_tool_except w).
    { intros ed. unfold handle_call_tool, try_except, handle_call_tool_try.
      simpl. unfold get_or. rewrite Hu, Hs, Ht. reflexivity. }
    split; [apply Hhttp | split; [apply Htool | split]].
    + rewrite Hhttp.
      apply (bind_real_client UpscaleImage
               {| arg_image_url := u; arg_prompt := PNone;
                  arg_strength := PNone; arg_scale := PInt 2 |}).
      intros v w'. apply respond_envelope.
    + rewrite Htool. unfold try_except.
      destruct (bind_real_client UpscaleImage
                  {| arg_image_url := u; arg_prompt := PNone;
                     arg_strength := PNone; arg_scale := PInt 2 |}
                  (fun result => format_response result) w)
        as (r & w' & Hr & Hw).
      { intros v w'. apply format_response_envelope. }
      exists r, w'.
      change (Editor.upscale_image (image_editor self) u (PInt 2))
        with (call self UpscaleImage
                   {| arg_image_url := u; arg_prompt := PNone;
                      arg_strength := PNone; arg_scale := PInt 2 |}).
      rewrite Hr. split; [reflexivity | exact Hw].
  - intros d u p Hu Ht Hp Htp Hs.
    assert (Hhttp : forall ed,
               edit_flux ed (PDict d) w =
               (result <- Editor.edit_image_flux ed u p (PFloat 0.8%float) ;;
                respond result) w).
    { intros ed. unfold edit_flux. rewrite request_data_dict.
      unfold py_get, bind, lift. rewrite Hu, Hp, Hs. simpl.
      now rewrite Ht, Htp. }
    assert (Htool : forall ed,
               handle_call_tool ed "edit_image_flux" d w =
               try_except
                 (result <- Editor.edit_image_flux ed u p (PFloat 0.8%float) ;;
                  format_response result)
                 handle_call_tool_except w).
    { intros ed. unfold handle_call_tool, try_except, handle_call_tool_try.
      simpl. unfold get_or. rewrite Hu, Hp, Hs, Ht, Htp. reflexivity. }
    split; [apply Hhttp | split; [apply Htool | split]].
    + rewrite Hhttp.
      apply (bind_real_client EditFlux
               {| arg_image_url := u; arg_prompt := p;
                  arg_strength := PFloat 0.8%float; arg_scale := PNone |}).
      intros v w'. apply respond_envelope.
    + rewrite Htool. unfold try_except.
      destruct (bind_real_client EditFlux
                  {| arg_image_url := u; arg_prompt := p;
                     arg_strength := PFloat 0.8%float; arg_scale := PNone |}
                  (fun result => format_response result) w)
        as (r & w' & Hr & Hw).
      { intros v w'. apply format_response_envelope. }
      exists r, w'.
      change (Editor.edit_image_flux (image_editor self) u p (PFloat 0.8%float))
        with (call self EditFlux
                   {| arg_image_url := u; arg_prompt := p;
                      arg_strength := PFloat 0.8%float; arg_scale := PNone |}).
      rewrite Hr. split; [reflexivity | exact Hw].
Qed.

End Defaults.

(* ------------------------------------------------------------------ *)
(** ** [POST /edit/flux]: conversion before validation *)

Section EditFluxOrder.
Context {rt : Runtime}.
Variable editor : Editor.t.

(** [float(None)] raises before the route has tested anything. *)
Lemma edit_flux_null_strength (d : dict) (w : world) :
  dict_get d "strength" = Some PNone ->
  edit_flux editor (PDict d) w =
  (Raise (TypeError
            "float() argument must be a string or a real number, not 'NoneType'"),
   w).
Proof.
  intros Hs. unfold edit_flux. rewrite request_data_dict.
  unfold py_get, bind, lift. now rewrite Hs.
Qed.

(** The request of the specification's example gets the 400 response. *)
Lemma edit_flux_without_prompt (w : world) :
  edit_flux editor (PDict [("image_url", PStr "http://x/img.png")]) w =
  (Return (bad_request "image_url and prompt are required"), w).
Proof. reflexivity. Qed.

(** So does a request whose body is absent or is not JSON. *)
Lemma edit_flux_without_body (w : world) :
  edit_flux editor PNone w =
  (Return (bad_request "image_url and prompt are required"), w).
Proof. reflexivity. Qed.

(** C7, at the input where the code departs from it.  The body
    [{"image_url": "http://x/img.png", "strength": null}] lacks [prompt];
    [edit_flux] raises [TypeError] out of [float(None)] and returns no
    400 response. *)
Theorem edit_flux_raises_before_validating (w : world) :
  edit_flux editor
    (PDict [("image_url", PStr "http://x/img.png"); ("strength", PNone)]) w =
  (Raise (TypeError
            "float() argument must be a string or a real number, not 'NoneType'"),
   w).
Proof. now apply edit_flux_null_strength. Qed.

End EditFluxOrder.

(* ------------------------------------------------------------------ *)
(** ** Runs *)

Lemma success_on_200_run :
  call (rt := plain_runtime) test_editor EditFlux sample_args (ok_world flux_body) =
    (Return (PDict [("success", PBool true);
                    ("image_url", PStr "https://cdn.fal/out.png");
                    ("model", PStr "FLUX Dev");
                    ("prompt", PStr "add a hat")]),
     with_call (ok_world flux_body) (request_of test_editor EditFlux sample_args))
  /\
  call (rt := plain_runtime) test_editor UpscaleImage sample_args
       (ok_world image_body) =
    (Return (PDict [("success", PBool true);
                    ("image_url", PStr "https://cdn.fal/out.png");
                    ("model", PStr "ESRGAN Upscaler");
                    ("prompt", PStr "Upscale 2x")]),
     with_call (ok_world image_body)
               (request_of test_editor UpscaleImage sample_args)).
Proof.
  split.
  - apply (success_on_200_documented_body (rt := plain_runtime) test_editor
             EditFlux sample_args (ok_world flux_body)
             {| status_code := 200; text := "{...}"; json := Return flux_body |}
             flux_body (PStr "https://cdn.fal/out.png"));
      [reflexivity | reflexivity | reflexivity |].
    simpl. do 3 eexists. repeat split; reflexivity.
  - apply (success_on_200_documented_body (rt := plain_runtime) test_editor
             UpscaleImage sample_args (ok_world image_body)
             {| status_code := 200; text := "{...}"; json := Return image_body |}
             image_body (PStr "https://cdn.fal/out.png"));
      [reflexivity | reflexivity | reflexivity |].
    simpl. do 2 eexists. repeat split; reflexivity.
Defined.

Lemma failure_on_non_200_run :
  exists msg,
    call (rt := plain_runtime) test_editor RemoveBackground sample_args busy_world =
    (Return (PDict [("success", PBool false); ("error", PStr msg)]),
     with_call busy_world (request_of test_editor RemoveBackground sample_args)) /\
    msg = "API request failed: 503 Service Unavailable" /\
    contains "503" msg /\
    contains "Service Unavailable" msg.
Proof.
  apply (failure_on_non_200 (rt := plain_runtime) test_editor RemoveBackground
           sample_args busy_world
           {| status_code := 503; text := "Service Unavailable";
              json := Raise (ValueError "Expecting value: line 1 column 1 (char 0)") |});
    [reflexivity | simpl; lia].
Defined.

Lemma exceptions_become_failures_run :
  call (rt := plain_runtime) test_editor EditQwen sample_args down_world =
  (Return (PDict [("success", PBool false);
                  ("error", PStr "All connection attempts failed")]),
   with_log (with_call down_world (request_of test_editor EditQwen sample_args))
            "Error editing image with Qwen: All connection attempts failed").
Proof.
  apply (proj1 (proj2 (proj2
           (exceptions_become_failures (rt := plain_runtime) test_editor
              EditQwen sample_args down_world)))
           {| exc_type := "ConnectError";
              exc_str := "All connection attempts failed" |}).
  reflexivity.
Defined.

Lemma tool_handler_catches_run :
  handle_call_tool (rt := plain_runtime)
    (raising_editor {| exc_type := "RuntimeError"; exc_str := "boom" |})
    "remove_background" [("image_url", PStr "http://x/img.png")] down_world =
  (Return (error_result "Internal error: boom"),
   with_log down_world "Error in handle_call_tool: boom").
Proof.
  apply (proj2 (tool_handler_catches_everything (rt := plain_runtime)
                  (raising_editor {| exc_type := "RuntimeError"; exc_str := "boom" |})
                  "remove_background" [("image_url", PStr "http://x/img.png")]
                  down_world)
           {| exc_type := "RuntimeError"; exc_str := "boom" |} down_world).
  reflexivity.
Defined.

(** The view itself has no handler: a complete request whose [strength]
    is [null] makes [edit_flux] raise, and it is the app around the view
    that answers. *)
Lemma http_view_lets_exception_escape :
  ~ exists resp w',
      edit_flux (rt := plain_runtime) test_object
        (PDict [("image_url", PStr "http://x/img.png");
                ("prompt", PStr "add a hat"); ("strength", PNone)])
        (ok_world flux_body) = (Return resp, w').
Proof.
  intros (resp & w' & H).
  rewrite (edit_flux_null_strength (rt := plain_runtime)) in H by reflexivity.
  discriminate H.
Qed.



Lemma defaults_are_applied_run :
  exists resp w',
    upscale (rt := plain_runtime) test_object
            (PDict [("image_url", PStr "http://x/img.png")]) (ok_world image_body) =
      (Return resp, w') /\
    calls w' =
      (calls (ok_world image_body)
         ++ [upscale_by_2 test_editor (PStr "http://x/img.png")])%list.
Proof.
  apply (proj1 (defaults_are_applied (rt := plain_runtime)
                  test_object test_editor (ok_world image_body))
           [("image_url", PStr "http://x/img.png")] (PStr "http://x/img.png"));
    reflexivity.
Defined.

Lemma falsy_required_is_absent_run :
  serve (rt := plain_runtime) test_object PostEditQwen
        (PDict [("image_url", PStr "http://x/img.png"); ("prompt", PStr "")])
        down_world =
  (Return (bad_request "image_url and prompt are required"), down_world).
Proof.
  apply (proj2 (falsy_required_is_absent (rt := plain_runtime)
                  test_object (PStr "") eq_refl)
           PostEditQwen "prompt"
           [("image_url", PStr "http://x/img.png"); ("prompt", PStr "")]
           [("image_url", PStr "http://x/img.png")] down_world).
  - simpl. right. left. reflexivity.
  - reflexivity.
  - reflexivity.
  - intros k' Hk. unfold dict_get.
    destruct (String.eqb_spec "image_url" k'); [reflexivity |].
    destruct (String.eqb_spec "prompt" k') as [E | _]; [| reflexivity].
    symmetry in E. contradiction.
  - reflexivity.
Defined.

(** A whole tool call that succeeds: one request, and the rendered text. *)
Example tool_call_renders_success :
  handle_call_tool (rt := plain_runtime) test_object "edit_image_flux"
    [("image_url", PStr "http://x/img.png"); ("prompt", PStr "add a hat")]
    (ok_world flux_body) =
  (Return {| content :=
               [mkTextContent "text"
                  ("✅ Image edited successfully!" ++ nl ++ nl
                     ++ "**Model:** FLUX Dev" ++ nl
                     ++ "**Prompt:** add a hat" ++ nl
                     ++ "**Result:** https://cdn.fal/out.png")];
             isError := false |},
   with_call (ok_world flux_body)
             (flux_at_default test_editor (PStr "http://x/img.png")
                              (PStr "add a hat"))).
Proof. reflexivity. Qed.

(** A vendor failure seen through the HTTP front-end: status 500 and the
    client's failure dict as the body. *)
Example upscale_route_reports_vendor_failure :
  fst (upscale (rt := plain_runtime) test_object
               (PDict [("image_url", PStr "http://x/img.png")]) busy_world) =
  Return {| body := failure_dict "API request failed: 503 Service Unavailable";
            status := 500 |}.
Proof. reflexivity. Qed.

(** A body that is JSON but not a mapping makes the view raise. *)
Example route_raises_on_a_list_body :
  fst (remove_bg test_object (PList [PInt 1]) busy_world) =
  Raise (AttributeError "'list' object has no attribute 'get'").
Proof. reflexivity. Qed.

(* ------------------------------------------------------------------ *)
(** ** More on the client *)

Section ClientMore.
Context {rt : Runtime}.
Variable self : FalAIImageEditor.t.

(** X1.  Whatever the vendor does, a client method returns one of its two
    dicts, has issued exactly one request - the POST to its own endpoint
    with the two headers - after the earlier ones, leaves the vendor as it
    was, and has logged nothing or the one line of the exception it turned
    into a failure. *)
Theorem client_call_footprint (op : operation) (a : call_args) (w : world) :
  exists v w',
    call self op a w = (Return v, w') /\
    envelope v /\
    calls w' = (calls w ++ [request_of self op a])%list /\
    vendor w' = vendor w /\
    (log w' = log w \/
     exists e, log w' = (log w ++ [(log_prefix op ++ exc_str e)%string])%list /\
               v = failure_dict (exc_str e)).
Proof.
  assert (Hf : forall msg, envelope (failure_dict msg)) by (right; eauto).
  assert (Hs : forall u m p, envelope (success_dict u m p)) by (left; eauto).
  pose proof (call_try_run self op a w) as H. cbv zeta in H.
  destruct (vendor w (calls w) (request_of self op a)) as [e | r].
  - apply call_of_raise in H. do 2 eexists. split; [exact H |].
    repeat split; auto. right. exists e. split; reflexivity.
  - destruct (status_code r =? 200).
    + destruct (json r) as [e | b].
      * apply call_of_raise in H. do 2 eexists. split; [exact H |].
        repeat split; auto. right. exists e. split; reflexivity.
      * destruct (extract op b) as [e | u].
        -- apply call_of_raise in H. do 2 eexists. split; [exact H |].
           repeat split; auto. right. exists e. split; reflexivity.
        -- apply call_of_return in H. do 2 eexists. split; [exact H |].
           repeat split; auto.
    + apply call_of_return in H. do 2 eexists. split; [exact H |].
      repeat split; auto. apply Hf.
Qed.

(** X2.  A client method reports success only when the vendor answered its
    request with status 200 and a body that parses and holds a value along
    the field path; the result is then the success dict of that value, and
    nothing was logged. *)
Theorem success_only_on_200
  (op : operation) (a : call_args) (w w' : world) (v : pyval) :
  call self op a w = (Return v, w') ->
  (exists d, v = PDict d /\ dict_get d "success" = Some (PBool true)) ->
  exists r b u,
    vendor w (calls w) (request_of self op a) = Responded r /\
    status_code r = 200 /\
    json r = Return b /\
    extract op b = Return u /\
    v = success_dict u (model_label op) (description op a) /\
    w' = with_call w (request_of self op a).
Proof.
  intros Hc (d & Hd & Hs).
  pose proof (call_try_run self op a w) as H. cbv zeta in H.
  destruct (vendor w (calls w) (request_of self op a)) as [e | r].
  - apply call_of_raise in H. rewrite H in Hc. inversion Hc; subst.
    unfold failure_dict in *. inversion H1; subst. discriminate Hs.
  - destruct (status_code r =? 200) eqn:E200.
    + destruct (json r) as [e | b] eqn:Ej.
      * apply call_of_raise in H. rewrite H in Hc. inversion Hc; subst.
        unfold failure_dict in *. inversion H1; subst. discriminate Hs.
      * destruct (extract op b) as [e | u] eqn:Ex.
        -- apply call_of_raise in H. rewrite H in Hc. inversion Hc; subst.
           unfold failure_dict in *. inversion H1; subst. discriminate Hs.
        -- apply call_of_return in H. rewrite H in Hc. inversion Hc; subst.
           apply Z.eqb_eq in E200. exists r, b, u. repeat split; auto.
    + apply call_of_return in H. rewrite H in Hc. inversion Hc; subst.
      unfold FalAIImageEditor.api_request_failed, failure_dict in *.
      inversion H1; subst. discriminate Hs.
Qed.

(** X3.  A 200 answer without the image is a failure, not a success: when
    the parsed body is a dict that lacks the key the operation reads
    (["images"] for the FLUX edit, ["image"] for the other three) the error
    is the [repr] of that key, as [str(KeyError)] gives it; and when the
    FLUX body holds an empty ["images"] list the error is
    ["list index out of range"]. *)
Theorem body_without_image_is_failure
  (op : operation) (a : call_args) (w : world) (r : response) (d : dict) :
  vendor w (calls w) (request_of self op a) = Responded r ->
  status_code r = 200 ->
  json r = Return (PDict d) ->
  let key := match op with EditFlux => "images" | _ => "image" end in
  (dict_get d key = None ->
   call self op a w =
   (Return (PDict [("success", PBool false); ("error", PStr (str_repr key))]),
    with_log (with_call w (request_of self op a))
             (log_prefix op ++ str_repr key))) /\
  (op = EditFlux ->
   dict_get d "images" = Some (PList []) ->
   call self op a w =
   (Return (PDict [("success", PBool false);
                   ("error", PStr "list index out of range")]),
    with_log (with_call w (request_of self op a))
             (log_prefix op ++ "list index out of range"))).
Proof.
  intros Hv Hs Hj key. split.
  - intros Hk.
    assert (Hx : extract op (PDict d) = Raise (KeyError (str_repr key))).
    { destruct op; simpl; subst key; simpl in Hk; now rewrite Hk. }
    replace (str_repr key) with (exc_str (KeyError (str_repr key))) by reflexivity.
    apply call_of_raise. rewrite call_try_run. cbv zeta.
    rewrite Hv, Hs, Hj. simpl. now rewrite Hx.
  - intros -> Hk.
    replace "list index out of range"
      with (exc_str (IndexError "list index out of range")) by reflexivity.
    apply call_of_raise. rewrite call_try_run. cbv zeta.
    rewrite Hv, Hs, Hj. simpl. now rewrite Hk.
Qed.

End ClientMore.

(** X4.  The constructor refuses an absent and an empty [FAL_KEY] with
    [ValueError]; with any other key it builds a client each of whose
    methods, in every world, posts its one request to
    ["https://queue.fal.run"] followed by the operation's path, with the
    header [Authorization: Key <FAL_KEY>] and the JSON content type. *)
Theorem constructed_client_requests {rt : Runtime} (key : string) :
  FalAIImageEditor.init None =
    Raise (ValueError "FAL_KEY environment variable is required") /\
  FalAIImageEditor.init (Some "") =
    Raise (ValueError "FAL_KEY environment variable is required") /\
  (key <> "" ->
   exists self,
     FalAIImageEditor.init (Some key) = Return self /\
     forall op a w,
     exists v w' req,
       call self op a w = (Return v, w') /\
       calls w' = (calls w ++ [req])%list /\
       url req = "https://queue.fal.run" ++ endpoint op /\
       headers req =
       [("Authorization", "Key " ++ key); ("Content-Type", "application/json")]).
Proof.
  split; [reflexivity | split; [reflexivity |]].
  intros Hk. unfold FalAIImageEditor.init.
  apply String.eqb_neq in Hk. rewrite Hk.
  exists {| FalAIImageEditor.api_key := key;
            FalAIImageEditor.base_url := "https://queue.fal.run" |}.
  split; [reflexivity |]. intros op a w.
  destruct (call_returns
              {| FalAIImageEditor.api_key := key;
                 FalAIImageEditor.base_url := "https://queue.fal.run" |}
              op a w) as (v & w' & Hc & _ & Hw).
  exists v, w'. eexists. split; [exact Hc |]. split; [exact Hw |].
  split; reflexivity.
Qed.

(* ------------------------------------------------------------------ *)
(** ** More on the front-ends *)

Section Dispatch.
Context {rt : Runtime}.
Variable editor : Editor.t.

Lemma invoke_real (self : FalAIImageEditor.t) (op : operation) (a : call_args) :
  invoke (image_editor self) op a = call self op a.
Proof. destruct op; reflexivity. Qed.

(** Once the required values pass, the tool handler is the method followed
    by the formatting. *)
Lemma tool_dispatch (op : operation) (d : dict) (w : world) :
  passes_validation op d = true ->
  handle_call_tool_try editor (operation_tool op) d w =
  bind (invoke editor op (raw_args d)) (fun result => format_response result) w.
Proof.
  intros Hp.
  destruct op; cbn -[get_or truthy] in Hp |- *;
    try (apply andb_true_iff in Hp; destruct Hp as [H1 H2]; rewrite H1, H2);
    try rewrite Hp; reflexivity.
Qed.

(** Once the optional value converts and the required values pass, a route
    is the method followed by [respond]. *)
Lemma route_dispatch (op : operation) (d : dict) (a : call_args) (w : world) :
  passes_validation op d = true ->
  converted_args op d = Return a ->
  serve editor (operation_route op) (PDict d) w =
  bind (invoke editor op a) (fun result => respond result) w.
Proof.
  intros Hp Hc.
  destruct op; cbn -[get_or truthy py_float py_int request_data] in Hp, Hc |- *;
    unfold edit_flux, edit_qwen, remove_bg, upscale;
    rewrite request_data_dict; unfold py_get, bind, lift, ret;
    fold (get_or d "image_url" PNone); fold (get_or d "prompt" PNone);
    fold (get_or d "strength" (PFloat 0.8%float));
    fold (get_or d "scale" (PInt 2)).
  - destruct (py_float _) as [e | f]; [discriminate |].
    inversion Hc; subst. apply andb_true_iff in Hp. destruct Hp as [H1 H2].
    cbn -[get_or truthy]. now rewrite H1, H2.
  - inversion Hc; subst. apply andb_true_iff in Hp. destruct Hp as [H1 H2].
    cbn -[get_or truthy]. now rewrite H1, H2.
  - inversion Hc; subst. cbn -[get_or truthy]. now rewrite Hp.
  - destruct (py_int _) as [e | z]; [discriminate |].
    inversion Hc; subst. cbn -[get_or truthy]. now rewrite Hp.
Qed.

(** When the optional value does not convert, a route raises at once. *)
Lemma route_conversion_fails (op : operation) (d : dict) (e : exn) (w : world) :
  converted_args op d = Raise e ->
  serve editor (operation_route op) (PDict d) w = (Raise e, w).
Proof.
  intros Hc.
  destruct op; cbn -[get_or truthy py_float py_int request_data] in Hc |- *;
    try discriminate;
    unfold edit_flux, upscale;
    rewrite request_data_dict; unfold py_get, bind, lift, ret;
    fold (get_or d "strength" (PFloat 0.8%float));
    fold (get_or d "scale" (PInt 2)).
  - destruct (py_float _) as [e' | f]; [| discriminate]. now inversion Hc.
  - destruct (py_int _) as [e' | z]; [| discriminate]. now inversion Hc.
Qed.

(** When a required value fails the test, a route answers as [rejection]. *)
Lemma route_rejects_invalid (op : operation) (d : dict) (w : world) :
  passes_validation op d = false ->
  serve editor (operation_route op) (PDict d) w =
  rejection (operation_route op) d w.
Proof.
  intros Hp.
  destruct op; cbn -[get_or truthy] in Hp;
    try (apply andb_false_iff in Hp; destruct Hp as [Hp | Hp]).
  - apply (route_rejects editor PostEditFlux "image_url"); simpl; auto.
  - apply (route_rejects editor PostEditFlux "prompt"); simpl; auto.
  - apply (route_rejects editor PostEditQwen "image_url"); simpl; auto.
  - apply (route_rejects editor PostEditQwen "prompt"); simpl; auto.
  - apply (route_rejects editor PostRemoveBg "image_url"); simpl; auto.
  - apply (route_rejects editor PostUpscale "image_url"); simpl; auto.
Qed.

(** When a required value fails the test, the tool handler returns its
    validation error and leaves the world as it was. *)
Lemma tool_rejects_invalid (op : operation) (d : dict) (w : world) :
  passes_validation op d = false ->
  exists tail,
    handle_call_tool_try editor (operation_tool op) d w =
    (Return (error_result ("Error: image_url" ++ tail)), w).
Proof.
  intros Hp.
  pose (flux := {| name := "edit_image_flux";
                   required := ["image_url"; "prompt"];
                   defaults := [("strength", PFloat 0.8%float)] |}).
  pose (qwen := {| name := "edit_image_qwen";
                   required := ["image_url"; "prompt"];
                   defaults := [] |}).
  pose (rembg := {| name := "remove_background";
                    required := ["image_url"];
                    defaults := [] |}).
  pose (esrgan := {| name := "upscale_image";
                     required := ["image_url"];
                     defaults := [("scale", PInt 2)] |}).
  destruct op; cbn -[get_or truthy] in Hp;
    try (apply andb_false_iff in Hp; destruct Hp as [Hp | Hp]).
  - exists " and prompt are required".
    apply (tool_rejects editor flux "image_url" d w); simpl; auto.
  - exists " and prompt are required".
    apply (tool_rejects editor flux "prompt" d w); simpl; auto.
  - exists " and prompt are required".
    apply (tool_rejects editor qwen "image_url" d w); simpl; auto.
  - exists " and prompt are required".
    apply (tool_rejects editor qwen "prompt" d w); simpl; auto.
  - exists " is required".
    apply (tool_rejects editor rembg "image_url" d w); simpl; auto.
  - exists " is required".
    apply (tool_rejects editor esrgan "image_url" d w); simpl; auto 6.
Qed.

Lemma format_success (u : pyval) (m : string) (p : pyval) (w : world) :
  format_response (success_dict u m p) w =
  (Return {| content := [mkTextContent "text" (success_text (PStr m) p u)];
             isError := false |}, w).
Proof. reflexivity. Qed.

Lemma format_failure (msg : string) (w : world) :
  format_response (failure_dict msg) w =
  (Return {| content := [mkTextContent "text" (failure_text msg)];
             isError := true |}, w).
Proof. reflexivity. Qed.

Lemma respond_success (u : pyval) (m : string) (p : pyval) (w : world) :
  respond (success_dict u m p) w =
  (Return {| body := success_dict u m p; status := 200 |}, w).
Proof. reflexivity. Qed.

Lemma respond_failure (msg : string) (w : world) :
  respond (failure_dict msg) w =
  (Return {| body := failure_dict msg; status := 500 |}, w).
Proof. reflexivity. Qed.

End Dispatch.

Section ClientOutcomes.
Context {rt : Runtime}.
Variable self : FalAIImageEditor.t.

Lemma call_success (op : operation) (a : call_args) (w : world)
      (r : response) (b u : pyval) :
  vendor w (calls w) (request_of self op a) = Responded r ->
  status_code r = 200 ->
  json r = Return b ->
  extract op b = Return u ->
  call self op a w =
  (Return (success_dict u (model_label op) (description op a)),
   with_call w (request_of self op a)).
Proof.
  intros Hv Hs Hj Hx. apply call_of_return. rewrite call_try_run. cbv zeta.
  rewrite Hv, Hs, Hj. simpl. now rewrite Hx.
Qed.

Lemma call_non_200 (op : operation) (a : call_args) (w : world) (r : response) :
  vendor w (calls w) (request_of self op a) = Responded r ->
  status_code r <> 200 ->
  call self op a w =
  (Return (failure_dict ("API request failed: " ++ str_int (status_code r)
                           ++ " " ++ text r)),
   with_call w (request_of self op a)).
Proof.
  intros Hv Hs. apply call_of_return. rewrite call_try_run. cbv zeta.
  rewrite Hv. apply Z.eqb_neq in Hs. now rewrite Hs.
Qed.

Lemma call_unreachable (op : operation) (a : call_args) (w : world) (e : exn) :
  vendor w (calls w) (request_of self op a) = Failed e ->
  call self op a w =
  (Return (failure_dict (exc_str e)),
   with_log (with_call w (request_of self op a)) (log_prefix op ++ exc_str e)).
Proof.
  intros Hv. apply call_of_raise. rewrite call_try_run. cbv zeta. now rewrite Hv.
Qed.

End ClientOutcomes.

Section EndToEnd.
Context {rt : Runtime}.
Variable self : FalAIImageEditor.t.

(** X5.  A tool call that passes validation and whose request the vendor
    answers with 200 and a documented body returns a result that is not an
    error, whose one text reads: the check mark line, an empty line,
    [**Model:**] with the operation's label, [**Prompt:**] with the prompt
    or synthesized description, [**Result:**] with the vendor's URL; the
    request holds the mapping's values as given, and the defaults. *)
Theorem tool_call_success_text
  (op : operation) (d : dict) (w : world) (r : response) (b u : pyval) :
  passes_validation op d = true ->
  vendor w (calls w) (request_of self op (raw_args d)) = Responded r ->
  status_code r = 200 ->
  json r = Return b ->
  documented_shape op b u ->
  handle_call_tool (image_editor self) (operation_tool op) d w =
  (Return {| content :=
               [mkTextContent "text"
                  (success_text (PStr (model_label op))
                                (description op (raw_args d)) u)];
             isError := false |},
   with_call w (request_of self op (raw_args d))).
Proof.
  intros Hp Hv Hs Hj Hd. apply handle_call_tool_of_return.
  rewrite tool_dispatch by exact Hp. rewrite invoke_real. unfold bind.
  rewrite (call_success self op _ w r b u Hv Hs Hj (extract_documented op b u Hd)).
  apply format_success.
Qed.

(** X6.  A tool call that passes validation and whose request fails at the
    vendor returns an error result with the cross mark line: for a status
    other than 200 the text ends with
    ["API request failed: {status} {text}"] and nothing is logged; when
    the POST raises [e] it ends with [str(e)] and the client has logged
    one line. *)
Theorem tool_call_failure_text (op : operation) (d : dict) (w : world) :
  passes_validation op d = true ->
  (forall r,
      vendor w (calls w) (request_of self op (raw_args d)) = Responded r ->
      status_code r <> 200 ->
      handle_call_tool (image_editor self) (operation_tool op) d w =
      (Return {| content :=
                   [mkTextContent "text"
                      (failure_text ("API request failed: "
                                       ++ str_int (status_code r) ++ " " ++ text r))];
                 isError := true |},
       with_call w (request_of self op (raw_args d)))) /\
  (forall e,
      vendor w (calls w) (request_of self op (raw_args d)) = Failed e ->
      handle_call_tool (image_editor self) (operation_tool op) d w =
      (Return {| content := [mkTextContent "text" (failure_text (exc_str e))];
                 isError := true |},
       with_log (with_call w (request_of self op (raw_args d)))
                (log_prefix op ++ exc_str e))).
Proof.
  intros Hp. split.
  - intros r Hv Hs. apply handle_call_tool_of_return.
    rewrite tool_dispatch by exact Hp. rewrite invoke_real. unfold bind.
    rewrite (call_non_200 self op _ w r Hv Hs). apply format_failure.
  - intros e Hv. apply handle_call_tool_of_return.
    rewrite tool_dispatch by exact Hp. rewrite invoke_real. unfold bind.
    rewrite (call_unreachable self op _ w e Hv). apply format_failure.
Qed.

(** X7.  A POST that passes validation, whose optional value converts, and
    whose request the vendor answers with 200 and a documented body gets
    status 200 and the client's success dict as its body; the request holds
    the converted optional value. *)
Theorem route_success_is_200
  (op : operation) (d : dict) (a : call_args) (w : world)
  (r : response) (b u : pyval) :
  passes_validation op d = true ->
  converted_args op d = Return a ->
  vendor w (calls w) (request_of self op a) = Responded r ->
  status_code r = 200 ->
  json r = Return b ->
  documented_shape op b u ->
  serve (image_editor self) (operation_route op) (PDict d) w =
  (Return {| body := success_dict u (model_label op) (description op a);
             status := 200 |},
   with_call w (request_of self op a)).
Proof.
  intros Hp Hc Hv Hs Hj Hd.
  rewrite (route_dispatch _ op d a w Hp Hc). rewrite invoke_real. unfold bind.
  rewrite (call_success self op a w r b u Hv Hs Hj (extract_documented op b u Hd)).
  apply respond_success.
Qed.

(** X8.  A POST that passes validation, whose optional value converts, and
    whose request fails at the vendor gets status 500 and the client's
    failure dict as its body: with the vendor's status and body text for a
    status other than 200, with [str(e)] when the POST raises [e]. *)
Theorem route_failure_is_500
  (op : operation) (d : dict) (a : call_args) (w : world) :
  passes_validation op d = true ->
  converted_args op d = Return a ->
  (forall r,
      vendor w (calls w) (request_of self op a) = Responded r ->
      status_code r <> 200 ->
      serve (image_editor self) (operation_route op) (PDict d) w =
      (Return {| body := failure_dict ("API request failed: "
                                          ++ str_int (status_code r)
                                          ++ " " ++ text r);
                 status := 500 |},
       with_call w (request_of self op a))) /\
  (forall e,
      vendor w (calls w) (request_of self op a) = Failed e ->
      serve (image_editor self) (operation_route op) (PDict d) w =
      (Return {| body := failure_dict (exc_str e); status := 500 |},
       with_log (with_call w (request_of self op a))
                (log_prefix op ++ exc_str e))).
Proof.
  intros Hp Hc. split.
  - intros r Hv Hs.
    rewrite (route_dispatch _ op d a w Hp Hc). rewrite invoke_real. unfold bind.
    rewrite (call_non_200 self op a w r Hv Hs). apply respond_failure.
  - intros e Hv.
    rewrite (route_dispatch _ op d a w Hp Hc). rewrite invoke_real. unfold bind.
    rewrite (call_unreachable self op a w e Hv). apply respond_failure.
Qed.

End EndToEnd.

(* ------------------------------------------------------------------ *)
(** ** Bodies, names and the calls made *)

Section Bodies.
Context {rt : Runtime}.
Variable editor : Editor.t.

Lemma request_data_idem (parsed : pyval) :
  request_data (request_data parsed) = request_data parsed.
Proof.
  unfold request_data, py_or. destruct (truthy parsed) eqn:E.
  - now rewrite E.
  - reflexivity.
Qed.

(** A route sees its body only through [request_data]. *)
Lemma serve_request_data (r : route) (parsed : pyval) (w : world) :
  serve editor r parsed w = serve editor r (request_data parsed) w.
Proof.
  destruct r; unfold serve, edit_flux, edit_qwen, remove_bg, upscale;
    cbv zeta; now rewrite request_data_idem.
Qed.

Lemma route_is_operation (r : route) : exists op, r = operation_route op.
Proof.
  destruct r;
    [exists EditFlux | exists EditQwen | exists RemoveBackground
     | exists UpscaleImage]; reflexivity.
Qed.

Lemma serve_falsy (r : route) (parsed : pyval) (w : world) :
  truthy parsed = false ->
  serve editor r parsed w = (Return (bad_request (route_error r)), w).
Proof.
  intros Hf. rewrite serve_request_data.
  unfold request_data, py_or. rewrite Hf. destruct r; reflexivity.
Qed.

Lemma serve_non_mapping (r : route) (parsed : pyval) (w : world) :
  truthy parsed = true ->
  (forall d, parsed <> PDict d) ->
  serve editor r parsed w =
  (Raise (AttributeError
            ("'" ++ type_name parsed ++ "' object has no attribute 'get'")), w).
Proof.
  intros Ht Hn.
  destruct r; unfold serve, edit_flux, edit_qwen, remove_bg, upscale;
    cbv zeta; unfold request_data, py_or; rewrite Ht;
    (destruct parsed as [| b | z | f | s | l | d];
     [reflexivity | reflexivity | reflexivity | reflexivity | reflexivity
      | reflexivity | now elim (Hn d)]).
Qed.

(** Every name is a tool's, or is answered as unknown. *)
Lemma tool_name_cases (tool_name : string) :
  (exists op, tool_name = operation_tool op) \/
  (forall d w,
      handle_call_tool_try editor tool_name d w =
      (Return (error_result ("Error: Unknown tool '" ++ tool_name ++ "'")), w)).
Proof.
  destruct (String.eqb_spec tool_name "edit_image_flux") as [-> | H1];
    [left; now exists EditFlux |].
  destruct (String.eqb_spec tool_name "edit_image_qwen") as [-> | H2];
    [left; now exists EditQwen |].
  destruct (String.eqb_spec tool_name "remove_background") as [-> | H3];
    [left; now exists RemoveBackground |].
  destruct (String.eqb_spec tool_name "upscale_image") as [-> | H4];
    [left; now exists UpscaleImage |].
  right. intros d w. unfold handle_call_tool_try.
  apply String.eqb_neq in H1, H2, H3, H4. now rewrite H1, H2, H3, H4.
Qed.

Lemma converted_then_convert_optional (op : operation) (d : dict) (a : call_args) :
  converted_args op d = Return a ->
  convert_optional (operation_route op) d = Return tt.
Proof.
  destruct op; simpl; try reflexivity.
  - destruct (py_float _); [discriminate | reflexivity].
  - destruct (py_int _); [discriminate | reflexivity].
Qed.


(** X10.  A body that parses to a truthy value that is not an object - a
    non-empty list or string, a non-zero number, [true] - makes every
    route raise [AttributeError] on its first [data.get]; the world is left
    as it was. *)
Theorem non_mapping_body_raises (r : route) (parsed : pyval) (w : world) :
  truthy parsed = true ->
  (forall d, parsed <> PDict d) ->
  serve editor r parsed w =
  (Raise (AttributeError
            ("'" ++ type_name parsed ++ "' object has no attribute 'get'")), w).
Proof. apply serve_non_mapping. Qed.

(** X11.  An optional value that is [null], a list or an object never
    converts: on /edit/flux such a [strength], on /upscale such a [scale],
    makes the route raise [TypeError] whatever the required fields hold,
    and the world is left as it was, whatever the client object. *)
Theorem non_numeric_optional_raises (d : dict) (v : pyval) (w : world) :
  (v = PNone \/ (exists l, v = PList l) \/ (exists d', v = PDict d')) ->
  (dict_get d "strength" = Some v ->
   edit_flux editor (PDict d) w =
   (Raise (TypeError ("float() argument must be a string or a real number, not '"
                        ++ type_name v ++ "'")), w)) /\
  (dict_get d "scale" = Some v ->
   upscale editor (PDict d) w =
   (Raise (TypeError
             ("int() argument must be a string, a bytes-like object or a real number, not '"
                ++ type_name v ++ "'")), w)).
Proof.
  intros Hv. split; intros Hd.
  - apply (route_conversion_fails editor EditFlux d). simpl.
    unfold get_or. rewrite Hd.
    destruct Hv as [-> | [(l & ->) | (d' & ->)]]; reflexivity.
  - apply (route_conversion_fails editor UpscaleImage d). simpl.
    unfold get_or. rewrite Hd.
    destruct Hv as [-> | [(l & ->) | (d' & ->)]]; reflexivity.
Qed.

End Bodies.

Section CallsMade.
Context {rt : Runtime}.
Variable self : FalAIImageEditor.t.

(** X12.  With the real client the [try] suite of [handle_call_tool]
    always returns, on every name and every mapping, so the handler's
    [except] clause is never entered and no ["Internal error"] result is
    produced; and one invocation issues at most one request. *)
Theorem tool_handler_with_real_client
  (tool_name : string) (d : dict) (w : world) :
  exists res w',
    handle_call_tool_try (image_editor self) tool_name d w = (Return res, w') /\
    handle_call_tool (image_editor self) tool_name d w = (Return res, w') /\
    at_most_one_call w w'.
Proof.
  assert (Hgoal : exists res w',
             handle_call_tool_try (image_editor self) tool_name d w =
             (Return res, w') /\ at_most_one_call w w').
  { destruct (tool_name_cases (image_editor self) tool_name) as [(op & ->) | Hu].
    - destruct (passes_validation op d) eqn:Hp.
      + rewrite tool_dispatch by exact Hp. rewrite invoke_real. unfold bind.
        destruct (call_returns self op (raw_args d) w) as (v & w' & Hc & He & Hw).
        rewrite Hc.
        destruct (format_response_envelope v w' He) as (res & Hr).
        exists res, w'. split; [exact Hr |]. right. eauto.
      + destruct (tool_rejects_invalid (image_editor self) op d w Hp)
          as (tail & Hm).
        exists (error_result ("Error: image_url" ++ tail)), w.
        split; [exact Hm | now left].
    - eexists. exists w. split; [apply Hu | now left]. }
  destruct Hgoal as (res & w' & Ht & Hc).
  exists res, w'. split; [exact Ht | split; [| exact Hc]].
  now apply handle_call_tool_of_return.
Qed.

(** X13.  With the real client a POST route ends in one of three ways: it
    raises, and the world is as it was; it answers 400, and the world is as
    it was; or it answers 200 or 500 after exactly one request.  No other
    status is produced, and no request is issued for a POST that is
    refused. *)
Theorem route_outcomes (r : route) (parsed : pyval) (w : world) :
  exists res w',
    serve (image_editor self) r parsed w = (res, w') /\
    match res with
    | Raise _ => w' = w
    | Return resp =>
        (status resp = 400 /\ w' = w) \/
        ((status resp = 200 \/ status resp = 500) /\
         exists req, calls w' = (calls w ++ [req])%list)
    end.
Proof.
  destruct (truthy parsed) eqn:Ht.
  2:{ rewrite serve_falsy by exact Ht. do 2 eexists. split; [reflexivity |].
      left. split; reflexivity. }
  assert (Hnm : (forall d, parsed <> PDict d) ->
                exists res w',
                  serve (image_editor self) r parsed w = (res, w') /\
                  match res with
                  | Raise _ => w' = w
                  | Return resp =>
                      (status resp = 400 /\ w' = w) \/
                      ((status resp = 200 \/ status resp = 500) /\
                       exists req, calls w' = (calls w ++ [req])%list)
                  end).
  { intros Hn. rewrite serve_non_mapping by assumption.
    do 2 eexists. split; reflexivity. }
  destruct parsed as [| b | z | f | s | l | d];
    try (apply Hnm; intros d0; discriminate).
  clear Hnm Ht. destruct (route_is_operation r) as (op & ->).
  destruct (converted_args op d) as [e | a] eqn:Hc.
  - rewrite (route_conversion_fails _ op d e w Hc).
    do 2 eexists. split; reflexivity.
  - destruct (passes_validation op d) eqn:Hp.
    + rewrite (route_dispatch _ op d a w Hp Hc). rewrite invoke_real.
      unfold bind.
      destruct (call_returns self op a w) as (v & w' & Hv & He & Hw).
      rewrite Hv.
      destruct He as [(u & m & p & ->) | (msg & ->)].
      * rewrite respond_success. do 2 eexists. split; [reflexivity |].
        right. simpl. split; [now left | eauto].
      * rewrite respond_failure. do 2 eexists. split; [reflexivity |].
        right. simpl. split; [now right | eauto].
    + rewrite (route_rejects_invalid _ op d w Hp). unfold rejection.
      rewrite (converted_then_convert_optional op d a Hc).
      do 2 eexists. split; [reflexivity |]. left. split; reflexivity.
Qed.

(** X14.  The two front-ends do not send the same optional value.  For one
    mapping that passes validation, the tool handler posts [strength] and
    [scale] as the caller gave them, whatever their type, while the HTTP
    route posts [float(strength)] and [int(scale)]; this holds whatever
    the vendor then answers. *)
Theorem what_each_front_end_posts
  (op : operation) (d : dict) (a : call_args) (w : world) :
  passes_validation op d = true ->
  converted_args op d = Return a ->
  calls (snd (handle_call_tool (image_editor self) (operation_tool op) d w)) =
    (calls w ++ [request_of self op (raw_args d)])%list /\
  calls (snd (serve (image_editor self) (operation_route op) (PDict d) w)) =
    (calls w ++ [request_of self op a])%list.
Proof.
  intros Hp Hc. split.
  - unfold handle_call_tool, try_except.
    rewrite tool_dispatch by exact Hp. rewrite invoke_real. unfold bind.
    destruct (call_returns self op (raw_args d) w) as (v & w' & Hv & He & Hw).
    rewrite Hv. destruct (format_response_envelope v w' He) as (res & Hr).
    rewrite Hr. exact Hw.
  - rewrite (route_dispatch _ op d a w Hp Hc). rewrite invoke_real. unfold bind.
    destruct (call_returns self op a w) as (v & w' & Hv & He & Hw).
    rewrite Hv. destruct (respond_envelope v w' He) as (res & Hr).
    rewrite Hr. exact Hw.
Qed.

End CallsMade.

(* ------------------------------------------------------------------ *)
(** ** The script *)

Lemma truthy_py_or (a b : pyval) : truthy (py_or a b) = truthy a || truthy b.
Proof.
  unfold py_or. destruct (truthy a) eqn:E; simpl; [exact E | reflexivity].
Qed.

Lemma truthy_environ_get (environ : string -> option string) (k : string) :
  truthy (environ_get environ k) =
  match environ k with
  | Some s => negb (String.eqb s "")
  | None => false
  end.
Proof. unfold environ_get. destruct (environ k); reflexivity. Qed.

Section Script.
Context {rt : Runtime}.
Variable argv : list string.
Variable environ : string -> option string.

(** With a key, the script reaches the [__main__] block. *)
Lemma script_with_key (key : string) :
  environ "FAL_KEY" = Some key ->
  key <> "" ->
  script argv environ =
  if existsb (String.eqb "--http") argv
     || truthy (environ_get environ "PORT")
     || truthy (environ_get environ "RAILWAY_ENVIRONMENT")
  then
    match py_int (PStr (match environ "PORT" with
                        | Some s => s
                        | None => "8000"
                        end)) with
    | Raise e => (Uncaught e, [])
    | Return port => (ServeHttp "0.0.0.0" port, [])
    end
  else (Uncaught
          (AttributeError "'NoneType' object has no attribute 'tools_changed'"),
        [(INFO, "Starting Fal.ai Image Editor MCP Server...")]).
Proof.
  intros Hk Hne. apply String.eqb_neq in Hne.
  unfold script, main, FalAIImageEditor.init. rewrite Hk, Hne.
  rewrite !truthy_py_or. rewrite (truthy_environ_get environ "FAL_KEY").
  rewrite Hk, Hne. simpl negb.
  destruct (_ || _ || _); reflexivity.
Qed.

(** X15.  Without [FAL_KEY], or with an empty one, the script ends in the
    uncaught [ValueError] of the module-level [FalAIImageEditor()], whatever
    its arguments and the rest of the environment: neither server is
    started and nothing is logged. *)
Theorem script_without_key :
  environ "FAL_KEY" = None \/ environ "FAL_KEY" = Some "" ->
  script argv environ =
  (Uncaught (ValueError "FAL_KEY environment variable is required"), []).
Proof.
  intros [H | H]; unfold script; rewrite H; reflexivity.
Qed.

(** X16.  [main], run by itself without a key, logs its start line and the
    error line and ends in [sys.exit(1)]; the script never ends in
    [sys.exit], in no environment and on no arguments: the two
    [FAL_KEY] guards that call it are unreachable behind the module-level
    construction of the client. *)
Theorem script_never_exits_through_sys_exit :
  (environ "FAL_KEY" = None ->
   main environ =
   (SystemExit 1,
    [(INFO, "Starting Fal.ai Image Editor MCP Server...");
     (ERROR, "FAL_KEY environment variable is required!")])) /\
  (forall code, fst (script argv environ) <> SystemExit code).
Proof.
  split.
  - intros H. unfold main, environ_get. rewrite H. reflexivity.
  - intros code.
    destruct (environ "FAL_KEY") as [key |] eqn:Hk.
    + destruct (String.eqb_spec key "") as [-> | Hne].
      * rewrite script_without_key by (now right). discriminate.
      * rewrite (script_with_key key Hk Hne).
        destruct (_ || _ || _); [| discriminate].
        destruct (py_int _); discriminate.
    + rewrite script_without_key by (now left). discriminate.
Qed.


(** X18.  With a key, and with ["--http"] among the arguments or a
    non-empty [PORT] or a non-empty [RAILWAY_ENVIRONMENT], the script goes
    the HTTP way: it serves on host ["0.0.0.0"] at the port that [int()]
    reads from [PORT], or from ["8000"] when [PORT] is unset; and when
    [int()] rejects that text (an empty [PORT] with ["--http"], say) it ends
    in the uncaught [ValueError] and serves nothing. *)
Theorem script_serves_http (key : string) :
  environ "FAL_KEY" = Some key ->
  key <> "" ->
  (In "--http" argv \/
   (exists p, environ "PORT" = Some p /\ p <> "") \/
   (exists v, environ "RAILWAY_ENVIRONMENT" = Some v /\ v <> "")) ->
  let port_text := match environ "PORT" with
                   | Some s => s
                   | None => "8000"
                   end in
  (forall port,
      int_of_str port_text = Some port ->
      script argv environ = (ServeHttp "0.0.0.0" port, [])) /\
  (int_of_str port_text = None ->
   script argv environ =
   (Uncaught (ValueError ("invalid literal for int() with base 10: "
                            ++ str_repr port_text)), [])).
Proof.
  intros Hk Hne Hmode port_text.
  rewrite (script_with_key key Hk Hne).
  assert (Hm : existsb (String.eqb "--http") argv
               || truthy (environ_get environ "PORT")
               || truthy (environ_get environ "RAILWAY_ENVIRONMENT") = true).
  { destruct Hmode as [Hin | [(p & Hp & Hpn) | (v & Hv & Hvn)]].
    - assert (E : existsb (String.eqb "--http") argv = true).
      { apply existsb_exists. exists "--http". split; [exact Hin |].
        apply String.eqb_refl. }
      now rewrite E.
    - rewrite (truthy_environ_get environ "PORT"), Hp.
      apply String.eqb_neq in Hpn. rewrite Hpn. simpl.
      now rewrite orb_true_r.
    - rewrite (truthy_environ_get environ "RAILWAY_ENVIRONMENT"), Hv.
      apply String.eqb_neq in Hvn. rewrite Hvn. simpl.
      now rewrite orb_true_r. }
  rewrite Hm. fold port_text. simpl. split.
  - intros port Hp. now rewrite Hp.
  - intros Hp. now rewrite Hp.
Qed.

End Script.

(* ------------------------------------------------------------------ *)
(** ** The names the handler knows *)

Section KnownNames.
Context {rt : Runtime}.
Variable editor : Editor.t.

(** A formatted text starts with the check mark or with the cross mark. *)
Lemma format_response_text (v : pyval) (w w' : world) (res : CallToolResult) :
  format_response v w = (Return res, w') ->
  exists mark tail e,
    res = {| content := [mkTextContent "text" (mark ++ tail)]; isError := e |} /\
    (mark = "✅" \/ mark = "❌").
Proof.
  unfold format_response, bind, lift, ret.
  destruct (subscript_key v "success") as [e | success]; [discriminate |].
  destruct (truthy success).
  - destruct (subscript_key v "model") as [e | m]; [discriminate |].
    destruct (subscript_key v "prompt") as [e | p]; [discriminate |].
    destruct (subscript_key v "image_url") as [e | u]; [discriminate |].
    intros H. inversion H; subst. exists "✅". do 2 eexists.
    split; [reflexivity | now left].
  - destruct (subscript_key v "error") as [e | err]; [discriminate |].
    intros H. inversion H; subst. exists "❌". do 2 eexists.
    split; [reflexivity | now right].
Qed.

(** X19.  The handler and the tool list agree on the names: whatever the
    client object does, [handle_call_tool] answers with the
    ["Unknown tool"] error exactly for the names that are not in [TOOLS]. *)
Theorem unknown_exactly_outside_TOOLS
  (tool_name : string) (d : dict) (w : world) :
  fst (handle_call_tool editor tool_name d w) =
    Return (error_result ("Error: Unknown tool '" ++ tool_name ++ "'")) <->
  ~ In tool_name (map name TOOLS).
Proof.
  split.
  - intros H Hin.
    assert (Hop : exists op, tool_name = operation_tool op).
    { simpl in Hin. destruct Hin as [<- | [<- | [<- | [<- | []]]]];
        [exists EditFlux | exists EditQwen | exists RemoveBackground
         | exists UpscaleImage]; reflexivity. }
    destruct Hop as (op & ->). clear Hin.
    unfold handle_call_tool, try_except in H.
    destruct (passes_validation op d) eqn:Hp.
    + rewrite tool_dispatch in H by exact Hp. unfold bind in H.
      destruct (invoke editor op (raw_args d) w) as [[e | v] w1].
      * destruct op; discriminate H.
      * destruct (format_response v w1) as [[e | res] w2] eqn:Hf.
        -- destruct op; discriminate H.
        -- apply format_response_text in Hf.
           destruct Hf as (mark & tail & e & -> & [-> | ->]);
             destruct op; discriminate H.
    + destruct (tool_rejects_invalid editor op d w Hp) as (tail & Hm).
      rewrite Hm in H. destruct op; discriminate H.
  - intros Hn.
    destruct (tool_name_cases editor tool_name) as [(op & ->) | Hu].
    + exfalso. apply Hn. destruct op; simpl; tauto.
    + unfold handle_call_tool, try_except. now rewrite Hu.
Qed.

End KnownNames.

(* ------------------------------------------------------------------ *)
(** ** More runs *)

Lemma success_only_on_200_run :
  exists r b u,
    vendor (ok_world flux_body) (calls (ok_world flux_body))
           (request_of test_editor EditFlux sample_args) = Responded r /\
    status_code r = 200 /\
    json r = Return b /\
    extract (rt := plain_runtime) EditFlux b = Return u /\
    success_dict (PStr "https://cdn.fal/out.png") "FLUX Dev" (PStr "add a hat") =
      success_dict u (model_label EditFlux)
                   (description (rt := plain_runtime) EditFlux sample_args) /\
    with_call (ok_world flux_body) (request_of test_editor EditFlux sample_args) =
      with_call (ok_world flux_body) (request_of test_editor EditFlux sample_args).
Proof.
  apply (success_only_on_200 (rt := plain_runtime) test_editor EditFlux
           sample_args (ok_world flux_body)).
  - reflexivity.
  - eexists. split; reflexivity.
Defined.

Lemma body_without_image_run :
  call (rt := plain_runtime) test_editor EditFlux sample_args
       (ok_world (PDict [("images", PList [])])) =
  (Return (PDict [("success", PBool false);
                  ("error", PStr "list index out of range")]),
   with_log (with_call (ok_world (PDict [("images", PList [])]))
                       (request_of test_editor EditFlux sample_args))
            "Error editing image with FLUX: list index out of range").
Proof.
  apply (proj2 (body_without_image_is_failure (rt := plain_runtime) test_editor
                  EditFlux sample_args (ok_world (PDict [("images", PList [])]))
                  {| status_code := 200; text := "{...}";
                     json := Return (PDict [("images", PList [])]) |}
                  [("images", PList [])] eq_refl eq_refl eq_refl));
    reflexivity.
Defined.

Lemma constructed_client_run :
  exists self,
    FalAIImageEditor.init (Some "test-key") = Return self /\
    forall op a w,
    exists v w' req,
      call (rt := plain_runtime) self op a w = (Return v, w') /\
      calls w' = (calls w ++ [req])%list /\
      url req = "https://queue.fal.run" ++ endpoint op /\
      headers req =
      [("Authorization", "Key test-key"); ("Content-Type", "application/json")].
Proof.
  apply (proj2 (proj2 (constructed_client_requests (rt := plain_runtime)
                         "test-key"))).
  discriminate.
Defined.

Lemma tool_call_success_run :
  handle_call_tool (rt := plain_runtime) test_object "upscale_image"
    [("image_url", PStr "http://x/img.png"); ("scale", PInt 4)]
    (ok_world image_body) =
  (Return {| content :=
               [mkTextContent "text"
                  ("✅ Image edited successfully!" ++ nl ++ nl
                     ++ "**Model:** ESRGAN Upscaler" ++ nl
                     ++ "**Prompt:** Upscale 4x" ++ nl
                     ++ "**Result:** https://cdn.fal/out.png")];
             isError := false |},
   with_call (ok_world image_body)
             (request_of test_editor UpscaleImage
                (raw_args [("image_url", PStr "http://x/img.png");
                           ("scale", PInt 4)]))).
Proof.
  apply (tool_call_success_text (rt := plain_runtime) test_editor UpscaleImage
           [("image_url", PStr "http://x/img.png"); ("scale", PInt 4)]
           (ok_world image_body)
           {| status_code := 200; text := "{...}"; json := Return image_body |}
           image_body (PStr "https://cdn.fal/out.png"));
    try reflexivity.
  simpl. do 2 eexists. repeat split; reflexivity.
Defined.

Lemma tool_call_failure_run :
  handle_call_tool (rt := plain_runtime) test_object "remove_background"
    [("image_url", PStr "http://x/img.png")] busy_world =
  (Return {| content :=
               [mkTextContent "text"
                  "❌ Error editing image: API request failed: 503 Service Unavailable"];
             isError := true |},
   with_call busy_world
             (request_of test_editor RemoveBackground
                (raw_args [("image_url", PStr "http://x/img.png")]))).
Proof.
  apply (proj1 (tool_call_failure_text (rt := plain_runtime) test_editor
                  RemoveBackground [("image_url", PStr "http://x/img.png")]
                  busy_world eq_refl)
           {| status_code := 503; text := "Service Unavailable";
              json := Raise (ValueError "Expecting value: line 1 column 1 (char 0)") |}).
  - reflexivity.
  - simpl. lia.
Defined.

Lemma route_success_run :
  serve (rt := plain_runtime) test_object PostUpscale
        (PDict [("image_url", PStr "http://x/img.png"); ("scale", PBool true)])
        (ok_world image_body) =
  (Return {| body := success_dict (PStr "https://cdn.fal/out.png")
                                  "ESRGAN Upscaler" (PStr "Upscale 1x");
             status := 200 |},
   with_call (ok_world image_body)
             (request_of test_editor UpscaleImage
                {| arg_image_url := PStr "http://x/img.png";
                   arg_prompt := PNone;
                   arg_strength := PFloat 0.8%float;
                   arg_scale := PInt 1 |})).
Proof.
  apply (route_success_is_200 (rt := plain_runtime) test_editor UpscaleImage
           [("image_url", PStr "http://x/img.png"); ("scale", PBool true)]
           {| arg_image_url := PStr "http://x/img.png";
              arg_prompt := PNone;
              arg_strength := PFloat 0.8%float;
              arg_scale := PInt 1 |}
           (ok_world image_body)
           {| status_code := 200; text := "{...}"; json := Return image_body |}
           image_body (PStr "https://cdn.fal/out.png"));
    try reflexivity.
  simpl. do 2 eexists. repeat split; reflexivity.
Defined.

Lemma route_failure_run :
  serve (rt := plain_runtime) test_object PostEditQwen
        (PDict [("image_url", PStr "http://x/img.png");
                ("prompt", PStr "add a hat")])
        down_world =
  (Return {| body := failure_dict "All connection attempts failed";
             status := 500 |},
   with_log
     (with_call down_world
        (request_of test_editor EditQwen
           (raw_args [("image_url", PStr "http://x/img.png");
                      ("prompt", PStr "add a hat")])))
     "Error editing image with Qwen: All connection attempts failed").
Proof.
  apply (proj2 (route_failure_is_500 (rt := plain_runtime) test_editor EditQwen
                  [("image_url", PStr "http://x/img.png");
                   ("prompt", PStr "add a hat")]
                  (raw_args [("image_url", PStr "http://x/img.png");
                             ("prompt", PStr "add a hat")])
                  down_world eq_refl eq_refl)
           {| exc_type := "ConnectError";
              exc_str := "All connection attempts failed" |}).
  reflexivity.
Defined.


Lemma non_mapping_body_run :
  serve (rt := plain_runtime) test_object PostEditFlux (PStr "hello") down_world =
  (Raise (AttributeError "'str' object has no attribute 'get'"), down_world).
Proof.
  apply (non_mapping_body_raises (rt := plain_runtime) test_object PostEditFlux
           (PStr "hello") down_world).
  - reflexivity.
  - intros d. discriminate.
Defined.

Lemma non_numeric_optional_run :
  upscale (rt := plain_runtime) test_object
          (PDict [("image_url", PStr "http://x/img.png"); ("scale", PList [PInt 2])])
          down_world =
  (Raise (TypeError
            "int() argument must be a string, a bytes-like object or a real number, not 'list'"),
   down_world).
Proof.
  apply (proj2 (non_numeric_optional_raises (rt := plain_runtime) test_object
                  [("image_url", PStr "http://x/img.png"); ("scale", PList [PInt 2])]
                  (PList [PInt 2]) down_world
                  (or_intror (or_introl (ex_intro _ [PInt 2] eq_refl))))).
  reflexivity.
Defined.

Lemma what_each_front_end_posts_run :
  calls (snd (handle_call_tool (rt := plain_runtime) test_object "upscale_image"
                [("image_url", PStr "http://x/img.png"); ("scale", PFloat 4.7%float)]
                down_world)) =
    [request_of test_editor UpscaleImage
       (raw_args [("image_url", PStr "http://x/img.png");
                  ("scale", PFloat 4.7%float)])] /\
  calls (snd (serve (rt := plain_runtime) test_object PostUpscale
                (PDict [("image_url", PStr "http://x/img.png");
                        ("scale", PFloat 4.7%float)])
                down_world)) =
    [request_of test_editor UpscaleImage
       {| arg_image_url := PStr "http://x/img.png";
          arg_prompt := PNone;
          arg_strength := PFloat 0.8%float;
          arg_scale := PInt 4 |}].
Proof.
  apply (what_each_front_end_posts (rt := plain_runtime) test_editor UpscaleImage
           [("image_url", PStr "http://x/img.png"); ("scale", PFloat 4.7%float)]
           {| arg_image_url := PStr "http://x/img.png";
              arg_prompt := PNone;
              arg_strength := PFloat 0.8%float;
              arg_scale := PInt 4 |}
           down_world); reflexivity.
Defined.

Lemma script_without_key_run :
  script (rt := decimal_runtime) ["fal_ai_mcp_server.py"; "--http"]
         (environ_of [("PORT", "8080")]) =
  (Uncaught (ValueError "FAL_KEY environment variable is required"), []).
Proof.
  apply (script_without_key (rt := decimal_runtime)
           ["fal_ai_mcp_server.py"; "--http"] (environ_of [("PORT", "8080")])).
  left. reflexivity.
Defined.

Lemma main_without_key_run :
  main (environ_of []) =
  (SystemExit 1,
   [(INFO, "Starting Fal.ai Image Editor MCP Server...");
    (ERROR, "FAL_KEY environment variable is required!")]).
Proof.
  apply (proj1 (script_never_exits_through_sys_exit (rt := decimal_runtime)
                  ["fal_ai_mcp_server.py"] (environ_of []))).
  reflexivity.
Defined.


Lemma script_serves_http_run :
  script (rt := decimal_runtime) ["fal_ai_mcp_server.py"]
         (environ_of [("FAL_KEY", "test-key");
                      ("RAILWAY_ENVIRONMENT", "production")]) =
  (ServeHttp "0.0.0.0" 8000, []).
Proof.
  refine (proj1 (script_serves_http (rt := decimal_runtime)
                   ["fal_ai_mcp_server.py"]
                   (environ_of [("FAL_KEY", "test-key");
                                ("RAILWAY_ENVIRONMENT", "production")])
                   "test-key" eq_refl _ _) 8000 _).
  - discriminate.
  - right. right. exists "production". split; [reflexivity | discriminate].
  - reflexivity.
Defined.

(* ------------------------------------------------------------------ *)
(** ** The outermost handlers *)


Section OutermostHandlers.
Context {rt : Runtime}.
Variable editor : Editor.t.





(** C10, at the input where the code departs from it.  The body
    [{"image_url": "", "prompt": "add a hat", "strength": null}] supplies a
    falsy [image_url]: [edit_flux] raises [TypeError] out of [float(None)]
    and returns no 400 response, so that the caller gets the framework's
    500 page; it does the same when [image_url] is absent, and [upscale]
    does the same on [{"image_url": null, "scale": []}]. *)
Theorem falsy_required_raises_before_validating (w : world) :
  app_handle editor
    (Post PostEditFlux
          (PDict [("image_url", PStr ""); ("prompt", PStr "add a hat");
                  ("strength", PNone)])) w =
  (Return internal_server_error, w) /\
  edit_flux editor
    (PDict [("image_url", PStr ""); ("prompt", PStr "add a hat");
            ("strength", PNone)]) w =
  (Raise (TypeError
            "float() argument must be a string or a real number, not 'NoneType'"),
   w) /\
  edit_flux editor
    (PDict [("prompt", PStr "add a hat"); ("strength", PNone)]) w =
  (Raise (TypeError
            "float() argument must be a string or a real number, not 'NoneType'"),
   w) /\
  upscale editor (PDict [("image_url", PNone); ("scale", PList [])]) w =
  (Raise (TypeError
            "int() argument must be a string, a bytes-like object or a real number, not 'list'"),
   w).
Proof. repeat split. Qed.

End OutermostHandlers.

